(** * amaze: robot build data, kinematics and controller persistence

    A shallow embedding of

      - [amaze/simu/robot.py]                ([Robot], [Robot.BuildData]),
      - [amaze/simu/controllers/control.py]  ([CONTROLLERS], [save], [load]),

    and the properties of them stated in the specification.

    Conventions of the embedding.
      - A Python [str] is a [string]; its characters are the code points
        below 256.  A Python [int] is a [Z].
      - A call that may raise returns a [result]; the exception classes the
        code can raise are the constructors of [exn].  [assert] statements
        are enabled.
      - A [dict] with string keys is a [gmap string _].                    *)

From Stdlib Require Import ZArith String Ascii Decimal DecimalString DecimalZ.
From Stdlib Require Import Reals Lra.
From stdpp Require Import base option list strings gmap.

Local Open Scope string_scope.

(* ===================================================================== *)
(** ** Python prelude: exceptions, results, strings and integers          *)
(* ===================================================================== *)

Module Py.

(** The exception classes raised by the embedded code. *)
Inductive exn : Type :=
| AssertionError
| IndexError
| KeyError
| TypeError
| AttributeError
| FileNotFoundError
| ValueError (msg : string).

Inductive result (A : Type) : Type :=
| Ok (a : A)
| Raise (e : exn).
Arguments Ok {A} a.
Arguments Raise {A} e.

#[global] Instance result_ret : MRet result := λ A a, Ok a.
#[global] Instance result_bind : MBind result := λ A B k m,
  match m with
  | Ok a => k a
  | Raise e => Raise e
  end.

(** [assert b] *)
Definition assert (b : bool) : result unit :=
  if b then Ok tt else Raise AssertionError.

(** [s[i]] for a non-negative index *)
Definition index (s : string) (i : nat) : result ascii :=
  match String.get i s with
  | Some c => Ok c
  | None => Raise IndexError
  end.

(** [s[i:]] and [s[0:j]] *)
Definition slice_from (i : nat) (s : string) : string :=
  substring i (String.length s - i) s.
Definition slice_to (j : nat) (s : string) : string :=
  substring 0 j s.

Definition code (c : ascii) : nat := nat_of_ascii c.

Definition is_ascii_digit (c : ascii) : bool :=
  (48 <=? code c)%nat && (code c <=? 57)%nat.

(** [c.isdigit()]: the ASCII digits and, in the range of the embedding,
    the superscript digits U+00B2, U+00B3 and U+00B9. *)
Definition isdigit (c : ascii) : bool :=
  is_ascii_digit c
  || (code c =? 178)%nat || (code c =? 179)%nat || (code c =? 185)%nat.

(** [c.isalpha()]: the letters (categories Lu, Ll, Lo) below 256. *)
Definition isalpha (c : ascii) : bool :=
  let n := code c in
  ((65 <=? n) && (n <=? 90) || (97 <=? n) && (n <=? 122)
   || (n =? 170) || (n =? 181) || (n =? 186)
   || (192 <=? n) && (n <=? 214) || (216 <=? n) && (n <=? 246)
   || (248 <=? n) && (n <=? 255))%nat.

(** [all(c.isdigit() for c in s)] *)
Fixpoint all_isdigit (s : string) : bool :=
  match s with
  | EmptyString => true
  | String c s' => isdigit c && all_isdigit s'
  end.

(** [int(s)] on a string without sign, blanks or underscores: the value of
    the decimal digits; [ValueError] on the empty string and on any other
    character (the superscript digits included). *)
Definition int (s : string) : result Z :=
  match s with
  | EmptyString => Raise (ValueError "invalid literal for int()")
  | _ =>
      match NilEmpty.uint_of_string s with
      | Some d => Ok (Z.of_uint d)
      | None => Raise (ValueError "invalid literal for int()")
      end
  end.

(** [str(n)] *)
Definition str (n : Z) : string := NilZero.string_of_int (Z.to_int n).

(** [s.lower()] *)
Definition lower_char (c : ascii) : ascii :=
  let n := code c in
  if ((65 <=? n) && (n <=? 90) || (192 <=? n) && (n <=? 214)
      || (216 <=? n) && (n <=? 222))%nat
  then ascii_of_nat (n + 32) else c.
Fixpoint lower (s : string) : string :=
  match s with
  | EmptyString => EmptyString
  | String c s' => String (lower_char c) (lower s')
  end.

(** The values stored in the dictionaries of the embedding: [None],
    booleans, integers and strings, and the lists and the tuples of
    these. *)
Inductive scalar : Type :=
| SNone
| SBool (b : bool)
| SInt (n : Z)
| SStr (s : string).

Inductive value : Type :=
| VNone
| VBool (b : bool)
| VInt (n : Z)
| VStr (s : string)
| VList (items : list scalar)
| VTuple (items : list scalar).

#[global] Instance scalar_eq_dec : EqDecision scalar.
Proof. solve_decision. Defined.
#[global] Instance value_eq_dec : EqDecision value.
Proof. solve_decision. Defined.

(** What [json.loads(json.dumps(v))] returns for the value [v]: JSON has
    arrays only, so that a tuple is written as an array and comes back as
    a list; the other values come back as they are. *)
Definition json_image (v : value) : value :=
  match v with
  | VTuple items => VList items
  | _ => v
  end.

(** [d[k]] *)
Definition getitem {A} (d : gmap string A) (k : string) : result A :=
  match d !! k with
  | Some a => Ok a
  | None => Raise KeyError
  end.

End Py.

Export Py.

(* ===================================================================== *)
(** ** [amaze.simu.types]                                                 *)
(* ===================================================================== *)

(** Modelled from the spec: the enumerations [InputType] and [OutputType] of
    [amaze/simu/types.py], which is not among the sources; each has the two
    members DISCRETE and CONTINUOUS. *)
Module InputType.
Inductive t : Type := DISCRETE | CONTINUOUS.
(** [i.name] *)
Definition name (i : t) : string :=
  match i with DISCRETE => "DISCRETE" | CONTINUOUS => "CONTINUOUS" end.
Definition members : list t := [DISCRETE; CONTINUOUS].
End InputType.

Module OutputType.
Inductive t : Type := DISCRETE | CONTINUOUS.
Definition name (o : t) : string :=
  match o with DISCRETE => "DISCRETE" | CONTINUOUS => "CONTINUOUS" end.
Definition members : list t := [DISCRETE; CONTINUOUS].
End OutputType.

#[global] Instance InputType_eq_dec : EqDecision InputType.t.
Proof. solve_decision. Defined.
#[global] Instance OutputType_eq_dec : EqDecision OutputType.t.
Proof. solve_decision. Defined.

(* ===================================================================== *)
(** ** [amaze.simu.robot]: [Robot.BuildData]                              *)
(* ===================================================================== *)

Module BuildData.

(** The fields of the dataclass [Robot.BuildData].  [control] is a string
    here; the marker [BaseBuildData.Unset] of the absent base class is not
    represented. *)
Record t : Type := Build {
  inputs : InputType.t;
  outputs : OutputType.t;
  vision : Z;
  control : string;
  control_data : option (gmap string value);
}.

#[global] Instance eq_dec : EqDecision t.
Proof. solve_decision. Defined.

Definition set_io (bd : t) (i : InputType.t) (o : OutputType.t) : t :=
  Build i o (vision bd) (control bd) (control_data bd).
Definition set_vision (bd : t) (v : Z) : t :=
  Build (inputs bd) (outputs bd) v (control bd) (control_data bd).

(** [__post_init__] *)
Definition post_init (bd : t) : t :=
  Build (inputs bd) (outputs bd) (vision bd) (lower (control bd))
        (control_data bd).

(** [cls()]: the field defaults, then [__post_init__] *)
Definition cls : t :=
  post_init (Build InputType.DISCRETE OutputType.DISCRETE 15 "random"
                   (Some ∅)).

(** [__inputs_to_string = {i: i.name[0] for i in InputType}] *)
Definition inputs_to_string (i : InputType.t) : string :=
  slice_to 1 (InputType.name i).
Definition outputs_to_string (o : OutputType.t) : string :=
  slice_to 1 (OutputType.name o).

(** [__string_to_input = {v: k for k, v in __inputs_to_string.items()}] *)
Definition string_to_input : gmap string InputType.t :=
  foldl (λ d i, <[inputs_to_string i := i]> d) ∅ InputType.members.
Definition string_to_output : gmap string OutputType.t :=
  foldl (λ d o, <[outputs_to_string o := o]> d) ∅ OutputType.members.

(** The table of the shorthands in [from_string]. *)
Definition shorthands : gmap string (InputType.t * OutputType.t) :=
  <["D" := (InputType.DISCRETE, OutputType.DISCRETE)]>
  (<["H" := (InputType.CONTINUOUS, OutputType.DISCRETE)]>
  (<["C" := (InputType.CONTINUOUS, OutputType.CONTINUOUS)]> ∅)).

Definition hybrid_msg : string :=
  "Incompatible hybrid mode. Agent cannot have discrete inputs and continuous outputs".
Definition odd_msg : string := "Retina size must be odd".

Definition from_string (robot : string) : result t :=
  let bd := cls in
  c0 ← index robot 0;
  assert (bool_decide (c0 ∈ ["D"; "C"; "H"]%char));;
  c1 ← index robot 1;
  assert (bool_decide (c1 ∈ ["D"; "C"]%char) || isdigit c1);;
  assert (all_isdigit (slice_from 2 robot));;
  let ix := (1 + (if isalpha c1 then 1 else 0))%nat in
  let io := slice_to ix robot in
  bd ← (if (String.length io =? 1)%nat then
          '(i, o) ← getitem shorthands io;
          mret (set_io bd i o)
        else
          i ← getitem string_to_input (slice_to 1 io);
          o ← getitem string_to_output (slice_to 1 (slice_from 1 io));
          if bool_decide (i = InputType.DISCRETE)
             && bool_decide (o = OutputType.CONTINUOUS)
          then Raise (ValueError hybrid_msg)
          else mret (set_io bd i o));
  if bool_decide (inputs bd = InputType.CONTINUOUS)
     && (ix <? String.length robot)%nat && (2 <? String.length robot)%nat
  then
    v ← int (slice_from ix robot);
    let bd := set_vision bd v in
    if bool_decide ((vision bd `mod` 2)%Z ≠ 1%Z)
    then Raise (ValueError odd_msg)
    else mret bd
  else mret bd.

Definition to_string (self : t) : string :=
  let s := inputs_to_string (inputs self) +:+ outputs_to_string (outputs self) in
  if bool_decide (inputs self = InputType.CONTINUOUS)
  then s +:+ str (vision self)
  else s.

(** *** Notions used to state the properties *)

(** The input and output types that [from_string] assigns to [bd.inputs] and
    [bd.outputs] (the assertions and the decoding of the letters, before the
    test for the hybrid pair). *)
Definition decode_io (robot : string) : result (InputType.t * OutputType.t) :=
  c0 ← index robot 0;
  assert (bool_decide (c0 ∈ ["D"; "C"; "H"]%char));;
  c1 ← index robot 1;
  assert (bool_decide (c1 ∈ ["D"; "C"]%char) || isdigit c1);;
  assert (all_isdigit (slice_from 2 robot));;
  let ix := (1 + (if isalpha c1 then 1 else 0))%nat in
  let io := slice_to ix robot in
  if (String.length io =? 1)%nat then getitem shorthands io
  else
    i ← getitem string_to_input (slice_to 1 io);
    o ← getitem string_to_output (slice_to 1 (slice_from 1 io));
    mret (i, o).

(** The last statements of [from_string], run when the vision size is
    read from [digits]. *)
Definition read_vision (bd : t) (digits : string) : result t :=
  v ← int digits;
  let bd := set_vision bd v in
  if bool_decide ((vision bd `mod` 2)%Z ≠ 1%Z)
  then Raise (ValueError odd_msg)
  else mret bd.

(** The build data with the types [i] and [o], the vision size [v] and the
    defaults of the other fields. *)
Definition parsed (i : InputType.t) (o : OutputType.t) (v : Z) : t :=
  set_vision (set_io cls i o) v.

(** The invariant of the data model: the pair of discrete inputs and
    continuous outputs is illegal, and the vision size is a positive odd
    integer. *)
Definition hybrid (b : t) : Prop :=
  inputs b = InputType.DISCRETE ∧ outputs b = OutputType.CONTINUOUS.
Definition valid (b : t) : Prop :=
  ¬ hybrid b ∧ (0 < vision b)%Z ∧ (vision b `mod` 2)%Z = 1%Z.

(** The vision size is set, that is differs from the default, only for
    continuous inputs. *)
Definition vision_set_only_if_continuous (b : t) : Prop :=
  vision b ≠ vision cls → inputs b = InputType.CONTINUOUS.

End BuildData.

(* ===================================================================== *)
(** ** [amaze.simu.robot]: [Robot]                                        *)
(* ===================================================================== *)

(** Modelled from the spec: the 2D vectors [Vec] and positions [Pos] of
    [amaze/simu/pos.py], which is not among the sources.  Coordinates are
    real numbers: the floating-point arithmetic of the program is idealised
    to exact arithmetic, and a position is a vector. *)
Module Vec.
Record t : Type := Build { x : R; y : R }.

(** [Vec.null()] *)
Definition null : t := Build 0 0.
(** [u + v] *)
Definition add (u v : t) : t := Build (x u + x v) (y u + y v).
(** [k * v], a number times a vector *)
Definition rmul (k : R) (v : t) : t := Build (k * x v) (k * y v).
(** [v * k], a vector times a number *)
Definition mul (v : t) (k : R) : t := Build (x v * k) (y v * k).
(** [v.length()] *)
Definition length (v : t) : R := sqrt (x v * x v + y v * y v).
End Vec.

Module Robot.

Definition RADIUS : R := 1 / 10.
Definition INERTIAL_LOSS : R := 5 / 10.
Definition ACCELERATION_SCALE : R := 5 / 10.

(** The attributes of a [Robot] once [reset] has given them values. *)
Record t : Type := Build {
  data : BuildData.t;
  pos : Vec.t;
  prev_cell : Z * Z;
  vel : Vec.t;
  acc : Vec.t;
  reward : R;
}.

Definition set_acc (self : t) (a : Vec.t) : t :=
  Build (data self) (pos self) (prev_cell self) (vel self) a (reward self).
Definition set_vel (self : t) (v : Vec.t) : t :=
  Build (data self) (pos self) (prev_cell self) v (acc self) (reward self).

(** [next_position(self, action, dt)]: the robot after the call and the
    returned position. *)
Definition next_position (self : t) (action : Vec.t) (dt : R) : t * Vec.t :=
  let self := set_acc self (Vec.rmul ACCELERATION_SCALE action) in
  let self :=
    set_vel self
      (Vec.add (Vec.rmul (1 - INERTIAL_LOSS * dt) (vel self))
               (Vec.rmul dt (acc self))) in
  let self :=
    if Rlt_dec (Vec.length (vel self))
               (Rmin (1 / 100) (ACCELERATION_SCALE / 2))
    then set_vel self Vec.null
    else self in
  (self, Vec.add (pos self) (Vec.rmul dt (vel self))).

(** The velocity update in the words of the specification:
    [vel * (1 - INERTIAL_LOSS * dt) + acc * dt], snapped to zero below the
    threshold. *)
Definition spec_velocity (vel acc : Vec.t) (dt : R) : Vec.t :=
  let v := Vec.add (Vec.mul vel (1 - INERTIAL_LOSS * dt)) (Vec.mul acc dt) in
  if Rlt_dec (Vec.length v) (Rmin (1 / 100) (ACCELERATION_SCALE / 2))
  then Vec.null else v.

End Robot.

(* ===================================================================== *)
(** ** [amaze.simu.controllers.control]                                   *)
(* ===================================================================== *)

Module Control.

(** *** Controller classes and objects *)

(** A class is named by its own name and its base class; the root is
    [BaseController].  Two classes are the same class when these agree. *)
Inductive class : Type :=
| BaseController
| Class (name : string) (base : class).

Definition RandomController : class := Class "RandomController" BaseController.
Definition KeyboardController : class := Class "KeyboardController" BaseController.
Definition TabularController : class := Class "TabularController" BaseController.

#[global] Instance class_eq_dec : EqDecision class.
Proof. solve_decision. Defined.

Fixpoint class_names (c : class) : list string :=
  match c with
  | BaseController => []
  | Class n b => n :: class_names b
  end.
Fixpoint class_of_names (l : list string) : class :=
  match l with
  | [] => BaseController
  | n :: l => Class n (class_of_names l)
  end.

#[global] Instance class_countable : Countable class.
Proof.
  apply (inj_countable' class_names class_of_names).
  intros c. induction c as [|n b IH]; simpl; [done | by rewrite IH].
Defined.

(** [issubclass(c, d)] *)
Fixpoint issubclass (c d : class) : bool :=
  bool_decide (c = d)
  || match c with
     | BaseController => false
     | Class _ b => issubclass b d
     end.

(** A zip archive, as [ZipFile.read] sees it: the content of each entry
    name.  Text is stored as its UTF-8 encoding, which is the string. *)
Abbreviation Archive := (gmap string string).

(** The metadata of a controller, [controller.infos]. *)
Abbreviation Infos := (gmap string value).

(** A controller object: its exact class [type(controller)], its [infos]
    and the attributes specific to its kind. *)
Record controller (Internals : Type) : Type := Controller {
  type : class;
  infos : Infos;
  internals : Internals;
}.
Arguments Controller {Internals} _ _ _.
Arguments type {Internals} _.
Arguments infos {Internals} _.
Arguments internals {Internals} _.

(** [c.infos = d] *)
Definition set_infos {I} (c : controller I) (d : Infos) : controller I :=
  Controller (type c) d (internals c).

(** *** What [save] and [load] use and the sources do not define

    The paths of [pathlib], the JSON codec of [json], and the two methods
    that every controller kind implements, [save_to_archive] (which may
    write entries and may raise) and the class method [load_from_archive]. *)
Class Env : Type := {
  Path : Type;
  Path_eq_dec :: EqDecision Path;
  Path_countable :: Countable Path;
  suffix : Path → string;
  with_suffix : Path → string → result Path;
  json_dumps : Infos → string;
  json_loads : string → result Infos;
  Internals : Type;
  save_to_archive : controller Internals → Archive → Archive * result unit;
  load_from_archive : class → Archive → result (controller Internals);
}.

(** The argument [path : Union[Path, str]]. *)
Inductive path_arg `{Env} : Type :=
| APath (p : Path)
| AStr (s : string).

(** The files: the archive stored under each path. *)
Abbreviation Files := (gmap Path Archive).

(** *** The body of a [with ZipFile(path, "w") as archive] block: a
    computation that updates the archive and may raise.  The entries
    written before an exception stay written. *)
Definition zip (A : Type) : Type := Archive → Archive * result A.

#[global] Instance zip_ret : MRet zip := λ A a ar, (ar, Ok a).
#[global] Instance zip_bind : MBind zip := λ A B k m ar,
  match m ar with
  | (ar', Ok a) => k a ar'
  | (ar', Raise e) => (ar', Raise e)
  end.

(** [archive.writestr(name, data)] *)
Definition writestr (name data : string) : zip unit :=
  λ ar, (<[name := data]> ar, Ok tt).
(** a computation that does not touch the archive *)
Definition lift {A} (r : result A) : zip A := λ ar, (ar, r).

(** [archive.read(name)] *)
Definition read (ar : Archive) (name : string) : result string :=
  getitem ar name.

(** [_infos = own.copy(); _infos.update(infos)]: the keys of [infos]
    replace those of the copy; [update(None)] raises [TypeError]. *)
Definition update (own : Infos) (infos : option Infos) : result Infos :=
  match infos with
  | Some m => Ok (m ∪ own)
  | None => Raise TypeError
  end.

(** *** The registry *)

Abbreviation Registry := (gmap string class).

Definition CONTROLLERS : Registry :=
  <["random" := RandomController]>
  (<["keyboard" := KeyboardController]>
  (<["tabular" := TabularController]> ∅)).

(** [reverse_map = {t: n for n, t in CONTROLLERS.items()}] *)
Definition reverse_map (reg : Registry) : gmap class string :=
  map_fold (λ n t acc, <[t := n]> acc) ∅ reg.

Section with_env.
Context `{Env}.

(** [save(controller, path, infos=None)] under the registry [reg]: the
    files after the call and its result.  Opening the archive for writing
    succeeds and replaces what was stored under the path; the archive is
    closed, and so stored, also when the body of the [with] block raises.
    Every dictionary of [value]s is serialisable, so that [json.dumps] does
    not raise. *)
Definition save (reg : Registry) (controller : controller Internals)
    (path : path_arg) (infos : option Infos) (fs : Files)
    : Files * result Path :=
  match reverse_map reg !! type controller with
  | None => (fs, Raise AssertionError)
  | Some controller_class =>
      match path with
      | AStr _ => (fs, Raise AttributeError)
      | APath path =>
          match (if bool_decide (suffix path ≠ ".zip")
                 then with_suffix path ".zip" else Ok path) with
          | Raise e => (fs, Raise e)
          | Ok path =>
              let body : zip unit :=
                writestr "controller_class" controller_class;;
                save_to_archive controller;;
                _infos ← lift (update (Control.infos controller) infos);
                writestr "infos" (json_dumps _infos) in
              let '(archive, r) := body ∅ in
              (<[path := archive]> fs, r;; Ok path)
          end
      end
  end.

(** [load(path)] under the registry [reg], for a [Path]. *)
Definition load (reg : Registry) (path : Path) (fs : Files)
    : result (controller Internals) :=
  archive ← match fs !! path with
            | Some ar => Ok ar
            | None => Raise FileNotFoundError
            end;
  controller_class ← read archive "controller_class";
  cls ← getitem reg controller_class;
  c ← load_from_archive cls archive;
  data ← read archive "infos";
  d ← json_loads data;
  mret (set_infos c d).

(** The path under which [save] writes: [path] itself when its suffix is
    [".zip"], and [path.with_suffix(".zip")] otherwise. *)
Definition normalized (path : Path) : result Path :=
  if bool_decide (suffix path ≠ ".zip")
  then with_suffix path ".zip" else Ok path.

End with_env.

End Control.

(** *** An environment for the examples

    Paths are a stem and an extension, a controller kind stores one string
    under the entry ["state"], and a dictionary is serialised as the binary
    digits of its code, which keeps every value as it is. *)
Module Sample.
Import Control.

Record path : Type := MkPath { stem : string; ext : string }.

#[global] Instance path_eq_dec : EqDecision path.
Proof. solve_decision. Defined.
#[global] Instance path_countable : Countable path.
Proof.
  apply (inj_countable' (λ p, (stem p, ext p)) (λ '(s, e), MkPath s e)).
  by intros [].
Defined.

Definition scalar_to_sum (v : scalar) : () + bool + Z + string :=
  match v with
  | SNone => inl (inl (inl ()))
  | SBool b => inl (inl (inr b))
  | SInt n => inl (inr n)
  | SStr s => inr s
  end.
Definition scalar_of_sum (x : () + bool + Z + string) : scalar :=
  match x with
  | inl (inl (inl _)) => SNone
  | inl (inl (inr b)) => SBool b
  | inl (inr n) => SInt n
  | inr s => SStr s
  end.
#[global] Instance scalar_countable : Countable scalar.
Proof.
  apply (inj_countable' scalar_to_sum scalar_of_sum). by intros [].
Defined.

Definition value_to_sum (v : value)
    : () + bool + Z + string + list scalar + list scalar :=
  match v with
  | VNone => inl (inl (inl (inl (inl ()))))
  | VBool b => inl (inl (inl (inl (inr b))))
  | VInt n => inl (inl (inl (inr n)))
  | VStr s => inl (inl (inr s))
  | VList l => inl (inr l)
  | VTuple l => inr l
  end.
Definition value_of_sum
    (x : () + bool + Z + string + list scalar + list scalar) : value :=
  match x with
  | inl (inl (inl (inl (inl _)))) => VNone
  | inl (inl (inl (inl (inr b)))) => VBool b
  | inl (inl (inl (inr n))) => VInt n
  | inl (inl (inr s)) => VStr s
  | inl (inr l) => VList l
  | inr l => VTuple l
  end.
#[global] Instance value_countable : Countable value.
Proof.
  apply (inj_countable' value_to_sum value_of_sum). by intros [].
Defined.

Fixpoint bits (p : positive) : string :=
  match p with
  | xH => ""
  | xO p => String "0" (bits p)
  | xI p => String "1" (bits p)
  end.
Fixpoint unbits (s : string) : option positive :=
  match s with
  | EmptyString => Some xH
  | String c s =>
      p ← unbits s;
      if Ascii.eqb c "0" then Some (xO p)
      else if Ascii.eqb c "1" then Some (xI p)
      else None
  end.

Definition dumps (d : gmap string value) : string := bits (encode d).
Definition loads (s : string) : result (gmap string value) :=
  match unbits s ≫= decode with
  | Some d => Ok d
  | None => Raise (ValueError "not a document")
  end.

#[global] Instance env : Env := {|
  Path := path;
  suffix := ext;
  with_suffix p s :=
    if bool_decide (stem p = "") then Raise (ValueError "empty name")
    else Ok (MkPath (stem p) s);
  json_dumps := dumps;
  json_loads := loads;
  Internals := string;
  save_to_archive c := writestr "state" (internals c);
  load_from_archive cls ar := s ← read ar "state"; mret (Controller cls ∅ s);
|}.

(** The same environment with a codec that loses what JSON loses: the
    dictionary is written as its JSON image. *)
Definition json_env : Env := {|
  Path := path;
  suffix := ext;
  with_suffix p s :=
    if bool_decide (stem p = "") then Raise (ValueError "empty name")
    else Ok (MkPath (stem p) s);
  json_dumps d := dumps (json_image <$> d);
  json_loads := loads;
  Internals := string;
  save_to_archive c := writestr "state" (internals c);
  load_from_archive cls ar := s ← read ar "state"; mret (Controller cls ∅ s);
|}.

(** A random controller with two entries of metadata. *)
Definition random_ctrl : controller Internals :=
  Controller RandomController
    (<["algo" := VStr "none"]> (<["seed" := VInt 3]> ∅)) "state of the kind".

(** A controller of a subclass of [RandomController]. *)
Definition derived_ctrl : controller Internals :=
  Controller (Class "MyRandom" RandomController) ∅ "state of the kind".

Definition ctrl_bin : Path := MkPath "ctrl" ".bin".
Definition ctrl_zip : Path := MkPath "ctrl" ".zip".

(** The archive of [random_ctrl] before the entry ["infos"] is written. *)
Definition random_archive : Archive :=
  <["state" := "state of the kind"]> {["controller_class" := "random"]}.

End Sample.

(* ===================================================================== *)
(** ** The rest of the three files                                        *)
(* ===================================================================== *)

(** *** The capability protocol of a controller

    What [Robot.BuildData.from_controller] and [check_types] read from a
    controller (or a controller class): the results of [inputs_types()],
    [outputs_types()] and [vision()]. *)
Module Protocol.
Record t : Type := Build {
  inputs_types : list InputType.t;
  outputs_types : list OutputType.t;
  vision : option Z;
}.
End Protocol.

(** *** [Robot.BuildData.from_controller] *)
Module FromController.
Import BuildData.

(** [_err(type)]: the message is the concatenation of the three literals of
    the source, which have no blank between them. *)
Definition _err (type : string) : exn :=
  ValueError ("Controller can handle more than one " +:+ type
              +:+ "type. Please use the other constructor to" +:+ "specify").

(** [l[0]] *)
Definition first {A} (l : list A) : result A :=
  match l !! 0%nat with
  | Some a => Ok a
  | None => Raise IndexError
  end.

Definition from_controller (controller : Protocol.t) : result t :=
  let bd := cls in
  bd ← (let i := Protocol.inputs_types controller in
        if (1 <? length i)%nat then Raise (_err "input")
        else i0 ← first i; mret (set_io bd i0 (outputs bd)));
  bd ← (let o := Protocol.outputs_types controller in
        if (1 <? length o)%nat then Raise (_err "output")
        else o0 ← first o; mret (set_io bd (inputs bd) o0));
  let bd :=
    if bool_decide (inputs bd = InputType.CONTINUOUS) then
      match Protocol.vision controller with
      | Some v => set_vision bd v
      | None => bd
      end
    else bd in
  mret bd.

End FromController.

(** *** [check_types] and [controller_factory] *)
Module Factory.
Import Control.

(** [check_types(controller, robot)] *)
Definition check_types (controller : Protocol.t) (robot : BuildData.t)
    : result bool :=
  assert (bool_decide (BuildData.inputs robot
                       ∈ Protocol.inputs_types controller));;
  assert (bool_decide (BuildData.outputs robot
                       ∈ Protocol.outputs_types controller));;
  mret true.

(** [controller_factory(c_type, c_data)] under the registry [reg]; the call
    of the class, [cls( **c_data)], is the parameter [construct]. *)
Definition controller_factory {C : Type}
    (construct : class → gmap string value → result C)
    (reg : Registry) (c_type : string) (c_data : gmap string value)
    : result C :=
  cls ← getitem reg (lower c_type);
  construct cls c_data.

End Factory.

(** *** [amaze.extensions.sb3.controller] *)
Module SB3.
Import Control.

(** The classes of the action spaces. *)
Inductive space_class : Type :=
| Discrete
| Box
| OtherSpace (name : string).

#[global] Instance space_class_eq_dec : EqDecision space_class.
Proof. solve_decision. Defined.

(** [_i_types_mapping] and [_o_types_mapping] *)
Definition _i_types_mapping : gmap nat InputType.t :=
  <[1%nat := InputType.DISCRETE]> (<[3%nat := InputType.CONTINUOUS]> ∅).
Definition _o_types_mapping (c : space_class) : option OutputType.t :=
  match c with
  | Discrete => Some OutputType.DISCRETE
  | Box => Some OutputType.CONTINUOUS
  | OtherSpace _ => None
  end.

(** The static methods [inputs_types()] and [outputs_types()] of a wrapped
    model: [list(InputType)] and [list(OutputType)]. *)
Definition inputs_types : list InputType.t := InputType.members.
Definition outputs_types : list OutputType.t := OutputType.members.

(** The capabilities of a wrapped model whose [vision()] is [v]. *)
Definition protocol (v : option Z) : Protocol.t :=
  Protocol.Build inputs_types outputs_types v.

(** The three arguments that [_setup_model] passes to
    [BaseController.__init__], for the shape of the observation space and
    the class of the action space.  They are evaluated before the call:
    [_input_type] is the value that [self._input_type] has then. *)
Definition setup_arguments (_input_type : option InputType.t)
    (shape : list Z) (action_space : space_class)
    : result (InputType.t * OutputType.t * option Z) :=
  i ← match _i_types_mapping !! length shape with
      | Some i => Ok i
      | None => Raise KeyError
      end;
  o ← match _o_types_mapping action_space with
      | Some o => Ok o
      | None => Raise KeyError
      end;
  v ← (if bool_decide (_input_type = Some InputType.DISCRETE) then Ok None
       else match shape !! 1%nat with
            | Some n => Ok (Some n)
            | None => Raise IndexError
            end);
  mret (i, o, v).

(** The attributes of a wrapped model that [save] reads:
    [self._model_type.__name__], [self._input_type], [self._output_type]
    and [self._vision]. *)
Record attributes : Type := Attributes {
  algo : string;
  _input_type : option InputType.t;
  _output_type : option OutputType.t;
  _vision : option Z;
}.

Definition vision_value (v : option Z) : value :=
  match v with
  | Some n => VInt n
  | None => VNone
  end.

(** The dictionary that [save] builds; [x.name] of [None] raises
    [AttributeError]. *)
Definition save_infos (self : attributes) : result Infos :=
  i ← match _input_type self with
      | Some i => Ok (InputType.name i)
      | None => Raise AttributeError
      end;
  o ← match _output_type self with
      | Some o => Ok (OutputType.name o)
      | None => Raise AttributeError
      end;
  mret (<["algo" := VStr (algo self)]>
        (<["inputs" := VStr i]>
        (<["outputs" := VStr o]>
        (<["vision" := vision_value (_vision self)]> ∅)))).

(** [SB3Controller.save(self, path)] without further arguments: the call
    of [save] of [amaze.simu.controllers.control], whose result is
    dropped. *)
Definition save `{Env} (reg : Registry) (self : controller Internals)
    (attrs : attributes) (path : path_arg) (fs : Files)
    : Files * result unit :=
  match save_infos attrs with
  | Raise e => (fs, Raise e)
  | Ok infos =>
      let '(fs', r) := Control.save reg self path (Some infos) fs in
      (fs', r;; Ok ())
  end.

(** [InputType[x]] and [OutputType[x]]: the member of that name. *)
Definition InputType_getitem (x : value) : result InputType.t :=
  match x with
  | VStr s =>
      match filter (λ i, InputType.name i = s) InputType.members with
      | i :: _ => Ok i
      | [] => Raise KeyError
      end
  | _ => Raise KeyError
  end.
Definition OutputType_getitem (x : value) : result OutputType.t :=
  match x with
  | VStr s =>
      match filter (λ o, OutputType.name o = s) OutputType.members with
      | o :: _ => Ok o
      | [] => Raise KeyError
      end
  | _ => Raise KeyError
  end.

(** The arguments [input_type], [output_type] and [vision] that
    [load_from_archive] passes to [BaseController.__init__], read from the
    dictionary [infos] of the archive. *)
Definition load_arguments (infos : Infos)
    : result (InputType.t * OutputType.t * value) :=
  i ← getitem infos "inputs" ≫= InputType_getitem;
  o ← getitem infos "outputs" ≫= OutputType_getitem;
  v ← getitem infos "vision";
  mret (i, o, v).

End SB3.

(** *** [Robot.reset] and [Robot.cell] *)
Module RobotCell.
Import Robot.

Section with_aligned.
(** [pos.aligned()], of [amaze/simu/pos.py], is not among the sources. *)
Variable aligned : Vec.t → Z * Z.

(** [reset(self, pos)]: every attribute but [data] is assigned. *)
Definition reset (self : t) (pos : Vec.t) : t :=
  Build (data self) pos (aligned pos) Vec.null Vec.null 0.

(** [cell(self)] *)
Definition cell (self : t) : Z * Z := aligned (pos self).

End with_aligned.

End RobotCell.

(* ===================================================================== *)
(** * Properties                                                          *)
(* ===================================================================== *)

(** ** Strings and integers *)

Lemma bind_Ok {A B} (a : A) (f : A → result B) : Ok a ≫= f = f a.
Proof. reflexivity. Qed.

Lemma slice_from_0 (s : string) : slice_from 0 s = s.
Proof.
  unfold slice_from. rewrite Nat.sub_0_r.
  induction s as [|c s IH]; simpl; [done | by rewrite IH].
Qed.

Lemma slice_from_S (n : nat) (c : ascii) (s : string) :
  slice_from (S n) (String c s) = slice_from n s.
Proof. reflexivity. Qed.

Lemma slice_to_0 (s : string) : slice_to 0 s = "".
Proof. by destruct s. Qed.

Lemma slice_to_S (n : nat) (c : ascii) (s : string) :
  slice_to (S n) (String c s) = String c (slice_to n s).
Proof. reflexivity. Qed.

Lemma index_0 (c : ascii) (s : string) : index (String c s) 0 = Ok c.
Proof. reflexivity. Qed.

Lemma index_S (c : ascii) (s : string) (n : nat) :
  index (String c s) (S n) = index s n.
Proof. reflexivity. Qed.

(** Normalise indexing and slicing of a string with known first characters,
    and run the binds of a [result] whose head is known. *)
Ltac py_strings :=
  rewrite ?index_S, ?index_0, ?slice_to_S, ?slice_to_0,
          ?slice_from_S, ?slice_from_0.
Ltac py_bind := cbn [mbind result_bind mret result_ret assert].

Lemma isdigit_not_alpha (c : ascii) : isdigit c = true → isalpha c = false.
Proof. destruct c as [[] [] [] [] [] [] [] []]; vm_compute; congruence. Qed.

Lemma all_isdigit_uint (d : uint) :
  all_isdigit (NilEmpty.string_of_uint d) = true.
Proof. induction d; simpl; auto. Qed.

Lemma string_of_uint_nonempty (d : uint) :
  d ≠ Nil → NilEmpty.string_of_uint d ≠ "".
Proof. by destruct d. Qed.

Lemma str_nonneg (n : Z) :
  (0 ≤ n)%Z →
  ∃ d, d ≠ Nil ∧ str n = NilEmpty.string_of_uint d ∧ Z.of_uint d = n.
Proof.
  intros Hn. destruct n as [|p|p]; [| |lia].
  - exists (D0 Nil). by repeat split.
  - pose proof (DecimalPos.Unsigned.to_uint_nonnil p) as Hnil.
    exists (Pos.to_uint p). repeat split; [done| |].
    + unfold str. simpl. unfold NilZero.string_of_uint.
      by destruct (Pos.to_uint p).
    + unfold Z.of_uint. by rewrite DecimalPos.Unsigned.of_to.
Qed.

(** [str] of a natural number is a non-empty string of ASCII digits that
    [int] reads back. *)
Lemma int_str (n : Z) :
  (0 ≤ n)%Z → str n ≠ "" ∧ all_isdigit (str n) = true ∧ int (str n) = Ok n.
Proof.
  intros (d & Hd & -> & <-)%str_nonneg.
  pose proof (string_of_uint_nonempty d Hd) as Hne.
  repeat split; [done | apply all_isdigit_uint |].
  unfold int. rewrite NilEmpty.usu.
  by destruct (NilEmpty.string_of_uint d).
Qed.

(** ** [Robot.BuildData.from_string] and [to_string] *)

Module BuildDataFacts.
Import BuildData.

(** [from_string] on a code of two characters or more, statement by
    statement: the three assertions, then the pair form when the second
    character is a letter and the shorthand form otherwise.  The vision
    size is read only when digits follow the second character. *)
Lemma from_string_unfold (c0 c1 : ascii) (ds : string) :
  from_string (String c0 (String c1 ds)) =
   (assert (bool_decide (c0 ∈ ["D"; "C"; "H"]%char));;
    assert (bool_decide (c1 ∈ ["D"; "C"]%char) || isdigit c1);;
    assert (all_isdigit ds);;
    if isalpha c1 then
      i ← getitem string_to_input (String c0 "");
      o ← getitem string_to_output (String c1 "");
      if bool_decide (i = InputType.DISCRETE)
         && bool_decide (o = OutputType.CONTINUOUS)
      then Raise (ValueError hybrid_msg)
      else if bool_decide (i = InputType.CONTINUOUS)
              && negb (bool_decide (ds = ""))
           then read_vision (set_io cls i o) ds
           else Ok (set_io cls i o)
    else
      '(i, o) ← getitem shorthands (String c0 "");
      if bool_decide (i = InputType.CONTINUOUS) && negb (bool_decide (ds = ""))
      then read_vision (set_io cls i o) (String c1 ds)
      else Ok (set_io cls i o)).
Proof.
  unfold from_string. py_strings. py_bind.
  destruct (bool_decide (c0 ∈ _)); py_bind; [|done].
  destruct (_ || _); py_bind; [|done].
  destruct (all_isdigit ds); py_bind; [|done].
  destruct (isalpha c1).
  - change (1 + 1)%nat with 2%nat. py_strings.
    change (String.length _ =? 1)%nat with false. cbv iota.
    destruct (getitem string_to_input _) as [i|]; py_bind; [|done].
    destruct (getitem string_to_output _) as [o|]; py_bind; [|done].
    destruct (_ && _); py_bind; [done|].
    change (inputs (set_io cls i o)) with i.
    destruct ds as [|d ds]; destruct (bool_decide (i = _)); reflexivity.
  - change (1 + 0)%nat with 1%nat. py_strings.
    change (String.length _ =? 1)%nat with true. cbv iota.
    destruct (getitem shorthands _) as [[i o]|]; py_bind; [|done].
    change (inputs (set_io cls i o)) with i.
    destruct ds as [|d ds]; destruct (bool_decide (i = _)); reflexivity.
Qed.

Lemma decode_io_unfold (c0 c1 : ascii) (ds : string) :
  decode_io (String c0 (String c1 ds)) =
   (assert (bool_decide (c0 ∈ ["D"; "C"; "H"]%char));;
    assert (bool_decide (c1 ∈ ["D"; "C"]%char) || isdigit c1);;
    assert (all_isdigit ds);;
    if isalpha c1 then
      i ← getitem string_to_input (String c0 "");
      o ← getitem string_to_output (String c1 "");
      mret (i, o)
    else getitem shorthands (String c0 "")).
Proof.
  unfold decode_io. py_strings. py_bind.
  destruct (bool_decide (c0 ∈ _)); py_bind; [|done].
  destruct (_ || _); py_bind; [|done].
  destruct (all_isdigit ds); py_bind; [|done].
  destruct (isalpha c1).
  - change (1 + 1)%nat with 2%nat. py_strings. reflexivity.
  - change (1 + 0)%nat with 1%nat. py_strings. reflexivity.
Qed.

Example cls_fields :
  cls = Build InputType.DISCRETE OutputType.DISCRETE 15 "random" (Some ∅).
Proof. reflexivity. Qed.

Example from_string_CC9 :
  from_string "CC9" = Ok (parsed InputType.CONTINUOUS OutputType.CONTINUOUS 9).
Proof. reflexivity. Qed.

Example from_string_C15 :
  from_string "C15" = Ok (parsed InputType.CONTINUOUS OutputType.CONTINUOUS 15).
Proof. reflexivity. Qed.

Example from_string_CC4 : from_string "CC4" = Raise (ValueError odd_msg).
Proof. reflexivity. Qed.

Example from_string_D3 :
  from_string "D3" = Ok (parsed InputType.DISCRETE OutputType.DISCRETE 15).
Proof. reflexivity. Qed.

Example from_string_HD : from_string "HD" = Raise KeyError.
Proof. reflexivity. Qed.

Example from_string_empty : from_string "" = Raise IndexError.
Proof. reflexivity. Qed.

(** A shorthand letter followed by one digit: the digit is not read, the
    vision size stays the default one and its parity is not checked. *)
Lemma from_string_shorthand_one_digit (c d : ascii) :
  bool_decide (c ∈ ["D"; "C"; "H"]%char) = true → isdigit d = true →
  ∃ i o, shorthands !! String c "" = Some (i, o)
         ∧ from_string (String c (String d "")) = Ok (parsed i o 15).
Proof.
  intros Hc Hd. rewrite from_string_unfold, Hc, Hd, orb_true_r.
  rewrite (isdigit_not_alpha d Hd). py_bind.
  apply bool_decide_eq_true_1 in Hc.
  assert (Hcases : (c = "D" ∨ c = "C" ∨ c = "H")%char).
  { rewrite !elem_of_cons in Hc. rewrite elem_of_nil in Hc. tauto. }
  destruct Hcases as [Heq|[Heq|Heq]]; subst c;
    eexists _, _; (split; reflexivity).
Qed.

(** C1.  A shorthand letter alone is not parsed: [from_string("D")],
    [from_string("H")] and [from_string("C")] raise [IndexError] when the
    second assertion reads [robot[1]]. *)
Theorem from_string_shorthand_alone :
  from_string "D" = Raise IndexError
  ∧ from_string "H" = Raise IndexError
  ∧ from_string "C" = Raise IndexError.
Proof. repeat split. Qed.

(** C2.  After a shorthand letter a single digit is not read as the vision
    size: [from_string("C9")] and [from_string("C4")] both return continuous
    inputs and outputs with the default vision 15, and neither raises. *)
Theorem from_string_C9_C4 :
  from_string "C9" = Ok (parsed InputType.CONTINUOUS OutputType.CONTINUOUS 15)
  ∧ from_string "C4" = Ok (parsed InputType.CONTINUOUS OutputType.CONTINUOUS 15).
Proof. split; reflexivity. Qed.

(** A helper for the general statements below: a code made of the letters
    of [i] and [o] followed by the decimal digits of a positive odd [v]. *)
Lemma from_string_continuous_pair (o : OutputType.t) (v : Z) :
  (0 < v)%Z → (v `mod` 2)%Z = 1%Z →
  from_string ("C" +:+ outputs_to_string o +:+ str v)
  = Ok (parsed InputType.CONTINUOUS o v).
Proof.
  intros Hpos Hodd.
  destruct (int_str v) as (Hne & Hds & Hint); [lia|].
  assert (Hnil : bool_decide (str v = "") = false) by by apply bool_decide_eq_false.
  destruct o;
    [change ("C" +:+ outputs_to_string OutputType.DISCRETE +:+ str v)
       with (String "C" (String "D" (str v)))
    |change ("C" +:+ outputs_to_string OutputType.CONTINUOUS +:+ str v)
       with (String "C" (String "C" (str v)))];
    rewrite from_string_unfold, Hds; py_bind;
    (change (isalpha _) with true; cbv iota);
    (change (getitem string_to_input _) with (Ok InputType.CONTINUOUS));
    [change (getitem string_to_output _) with (Ok OutputType.DISCRETE)
    |change (getitem string_to_output _) with (Ok OutputType.CONTINUOUS)];
    py_bind; rewrite Hnil; cbn [andb negb bool_decide decide_rel];
    unfold read_vision; rewrite Hint; py_bind;
    cbn [vision set_vision]; rewrite Hodd; reflexivity.
Qed.

(** C3 (as stated, refuted).  A valid build data whose vision size is the
    default, with discrete inputs and outputs and the controller
    ["keyboard"]: [to_string] gives ["DD"], and [from_string("DD")] is the
    build data with the default controller ["random"], which is not [b]. *)
Lemma roundtrip_loses_control :
  let b := Build InputType.DISCRETE OutputType.DISCRETE 15 "keyboard" (Some ∅) in
  valid b ∧ vision_set_only_if_continuous b
  ∧ to_string b = "DD"
  ∧ from_string (to_string b) = Ok cls
  ∧ from_string (to_string b) ≠ Ok b.
Proof.
  intros b. split; [|split; [|split; [|split]]].
  - split; [|done]. intros [_ Ho]. discriminate Ho.
  - intros Hv. by destruct Hv.
  - reflexivity.
  - reflexivity.
  - intros Heq. discriminate Heq.
Qed.

(** C3 (amended).  For every valid build data [b] (not the hybrid pair,
    vision size positive and odd) whose vision size differs from the default
    only when its inputs are continuous, [from_string(to_string(b))] returns
    the build data with the inputs, outputs and vision size of [b] and the
    default controller; this is [b] itself when the controller fields of [b]
    have their defaults.  [to_string(b)] is the two letters of the types,
    followed by the digits of the vision size if and only if the inputs are
    continuous. *)
Theorem from_string_to_string (b : t) :
  valid b → vision_set_only_if_continuous b →
  from_string (to_string b) = Ok (parsed (inputs b) (outputs b) (vision b))
  ∧ (control b = control cls → control_data b = control_data cls →
     from_string (to_string b) = Ok b)
  ∧ to_string b =
      String (match inputs b with
              | InputType.DISCRETE => "D" | InputType.CONTINUOUS => "C"
              end)
       (String (match outputs b with
                | OutputType.DISCRETE => "D" | OutputType.CONTINUOUS => "C"
                end)
          (if bool_decide (inputs b = InputType.CONTINUOUS)
           then str (vision b) else "")).
Proof.
  intros (Hhyb & Hpos & Hodd) Hset.
  assert (Hparse :
    from_string (to_string b) = Ok (parsed (inputs b) (outputs b) (vision b))).
  { destruct b as [i o v c cd]. cbn [inputs outputs vision] in *.
    destruct i.
    - assert (v = 15%Z) as ->.
      { destruct (decide (v = 15%Z)) as [|Hv]; [done|].
        specialize (Hset Hv). discriminate. }
      destruct o; [reflexivity|].
      exfalso. apply Hhyb. by split.
    - unfold to_string. cbn [inputs outputs vision].
      rewrite bool_decide_eq_true_2 by done.
      rewrite <-(from_string_continuous_pair o v Hpos Hodd).
      reflexivity. }
  split; [done|]. split.
  - intros Hc Hcd. rewrite Hparse. f_equal.
    destruct b as [i o v c cd]. cbn in Hc, Hcd. by subst.
  - destruct b as [[] [] v c cd]; reflexivity.
Qed.

(** Witness of C3: continuous inputs, discrete outputs and vision size 9. *)
Lemma from_string_to_string_witness :
  let b := Build InputType.CONTINUOUS OutputType.DISCRETE 9 "random" (Some ∅) in
  to_string b = "CD9" ∧ from_string "CD9" = Ok b.
Proof.
  intros b. split; [reflexivity|].
  refine (proj1 (proj2 (from_string_to_string b _ _)) eq_refl eq_refl).
  - split; [|done]. intros [Hi _]. discriminate Hi.
  - intros _. reflexivity.
Defined.

(** [parsed] field by field. *)
Example parsed_fields (i : InputType.t) (o : OutputType.t) (v : Z) :
  parsed i o v = Build i o v "random" (Some ∅).
Proof. reflexivity. Qed.

(** C8.  [from_string("DC")] raises the error of the hybrid mode, and
    [from_string("CD")] returns continuous inputs and discrete outputs
    (with the default vision size and controller fields); the pair ["DC"]
    is rejected whatever follows it (with the hybrid error when digits
    follow, by the third assertion otherwise). *)
Theorem from_string_DC_CD :
  from_string "DC"
  = Raise (ValueError
      "Incompatible hybrid mode. Agent cannot have discrete inputs and continuous outputs")
  ∧ from_string "CD"
    = Ok (Build InputType.CONTINUOUS OutputType.DISCRETE 15 "random" (Some ∅))
  ∧ (∃ bd, from_string "CD" = Ok bd
           ∧ inputs bd = InputType.CONTINUOUS
           ∧ outputs bd = OutputType.DISCRETE)
  ∧ ∀ ds, from_string ("DC" +:+ ds) =
          if all_isdigit ds
          then Raise (ValueError
            "Incompatible hybrid mode. Agent cannot have discrete inputs and continuous outputs")
          else Raise AssertionError.
Proof.
  split; [reflexivity|]. split; [reflexivity|].
  split; [by eexists|]. intros ds.
  change ("DC" +:+ ds) with (String "D" (String "C" ds)).
  rewrite from_string_unfold. by destruct (all_isdigit ds).
Qed.

(** C9 (as stated, refuted).  The code ["DC4"] decodes to discrete inputs,
    and [from_string] does not succeed on it: it raises the error of the
    hybrid mode. *)
Lemma discrete_input_DC4_raises :
  decode_io "DC4" = Ok (InputType.DISCRETE, OutputType.CONTINUOUS)
  ∧ from_string "DC4" = Raise (ValueError hybrid_msg)
  ∧ ¬ (∀ robot o, decode_io robot = Ok (InputType.DISCRETE, o) →
         ∃ bd, from_string robot = Ok bd ∧ vision bd = 15%Z).
Proof.
  repeat split. intros Hall.
  destruct (Hall "DC4" OutputType.CONTINUOUS eq_refl) as (bd & Hbd & _).
  discriminate.
Qed.

(** C9 (amended).  For every code that decodes to discrete inputs and
    discrete outputs, [from_string] succeeds and returns these types with
    the default vision size 15 and the default controller, whatever digits
    the code carries: the digits are not read and their parity is not
    checked.  (A code that decodes to discrete inputs and continuous outputs
    raises the error of the hybrid mode.) *)
Theorem from_string_discrete (robot : string) (o : OutputType.t) :
  decode_io robot = Ok (InputType.DISCRETE, o) →
  from_string robot =
    match o with
    | OutputType.DISCRETE =>
        Ok (parsed InputType.DISCRETE OutputType.DISCRETE 15)
    | OutputType.CONTINUOUS => Raise (ValueError hybrid_msg)
    end.
Proof.
  destruct robot as [|c0 [|c1 ds]].
  { intros H. discriminate H. }
  { unfold decode_io. py_strings. py_bind.
    destruct (bool_decide _); intros H; discriminate H. }
  rewrite decode_io_unfold, from_string_unfold.
  destruct (bool_decide (c0 ∈ _)); py_bind; [|done].
  destruct (_ || _); py_bind; [|done].
  destruct (all_isdigit ds); py_bind; [|done].
  destruct (isalpha c1).
  - destruct (getitem string_to_input _) as [i|]; py_bind; [|done].
    destruct (getitem string_to_output _) as [o'|]; py_bind; [|done].
    intros [= -> ->]. by destruct o.
  - destruct (getitem shorthands (String c0 "")) as [[i o']|] eqn:Hsh;
      py_bind; [|done].
    intros [= -> ->].
    destruct o; [reflexivity|].
    exfalso. unfold getitem in Hsh.
    destruct (shorthands !! String c0 "") as [[i' o']|] eqn:Hl; [|done].
    injection Hsh as -> ->. unfold shorthands in Hl.
    repeat (apply lookup_insert_Some in Hl as [[_ Hl]|[_ Hl]]; [done|]).
    done.
Qed.

(** Witness of C9: ["DD4"] and ["D3"], whose digits are ignored. *)
Lemma from_string_discrete_witness :
  from_string "DD4" = Ok (parsed InputType.DISCRETE OutputType.DISCRETE 15)
  ∧ from_string "D3" = Ok (parsed InputType.DISCRETE OutputType.DISCRETE 15).
Proof.
  split.
  - exact (from_string_discrete "DD4" OutputType.DISCRETE eq_refl).
  - exact (from_string_discrete "D3" OutputType.DISCRETE eq_refl).
Defined.

End BuildDataFacts.

(** ** [Robot.next_position] *)

Module RobotFacts.
Import Robot.
Local Open Scope R_scope.

Lemma vec_eq (u v : Vec.t) : Vec.x u = Vec.x v → Vec.y u = Vec.y v → u = v.
Proof. destruct u, v; simpl; congruence. Qed.

(** A vector times a number is the number times the vector. *)
Lemma mul_rmul (v : Vec.t) (k : R) : Vec.mul v k = Vec.rmul k v.
Proof. apply vec_eq; simpl; ring. Qed.

Lemma rmul_null (k : R) : Vec.rmul k Vec.null = Vec.null.
Proof. apply vec_eq; simpl; ring. Qed.

Lemma add_null_r (v : Vec.t) : Vec.add v Vec.null = v.
Proof. apply vec_eq; simpl; ring. Qed.

Lemma length_null : Vec.length Vec.null = 0.
Proof.
  unfold Vec.length. simpl. rewrite Rmult_0_l, Rplus_0_l. apply sqrt_0.
Qed.

(** The threshold [min(.01, ACCELERATION_SCALE / 2)] is [.01]. *)
Lemma threshold_value : Rmin (1 / 100) (ACCELERATION_SCALE / 2) = 1 / 100.
Proof. unfold ACCELERATION_SCALE. apply Rmin_left. lra. Qed.

(** The velocity that the code computes is the one of the specification. *)
Lemma velocity_refines (self : t) (action : Vec.t) (dt : R) :
  vel (fst (next_position self action dt))
  = spec_velocity (vel self) (Vec.rmul ACCELERATION_SCALE action) dt.
Proof.
  unfold next_position, spec_velocity. cbn [vel acc set_acc set_vel].
  rewrite !mul_rmul.
  by destruct (Rlt_dec _ _).
Qed.

(** C7.  [next_position] leaves [pos], [prev_cell], [reward] and [data] as
    they are; it sets [acc] to [ACCELERATION_SCALE * action] and [vel] to
    [vel * (1 - INERTIAL_LOSS * dt) + acc * dt] for the new [acc], replaced
    by the null vector when its length is below
    [min(.01, ACCELERATION_SCALE / 2)]; and it returns [pos + dt * vel] for
    the new [vel]. *)
Theorem next_position_frame (self : t) (action : Vec.t) (dt : R) :
  let self' := fst (next_position self action dt) in
  let acc' := Vec.rmul ACCELERATION_SCALE action in
  let v := Vec.add (Vec.mul (vel self) (1 - INERTIAL_LOSS * dt))
                   (Vec.rmul dt acc') in
  pos self' = pos self
  ∧ prev_cell self' = prev_cell self
  ∧ reward self' = reward self
  ∧ data self' = data self
  ∧ acc self' = acc'
  ∧ vel self' =
      (if Rlt_dec (Vec.length v) (Rmin (1 / 100) (ACCELERATION_SCALE / 2))
       then Vec.null else v)
  ∧ snd (next_position self action dt)
    = Vec.add (pos self) (Vec.rmul dt (vel self')).
Proof.
  cbv zeta. unfold next_position. cbn [vel acc set_acc set_vel].
  rewrite mul_rmul.
  destruct (Rlt_dec _ _); by repeat split.
Qed.

(** C6.  For a robot at rest ([vel] and [acc] null), [next_position] with
    the null action returns the position of the robot, for every [dt], and
    leaves the robot as it is. *)
Theorem next_position_at_rest (self : t) (dt : R) :
  vel self = Vec.null → acc self = Vec.null →
  next_position self Vec.null dt = (self, pos self).
Proof.
  intros Hvel Hacc. unfold next_position. cbn [vel acc set_acc set_vel].
  rewrite Hvel, !rmul_null, add_null_r.
  assert (Hself : Build (data self) (pos self) (prev_cell self)
                        Vec.null Vec.null (reward self) = self).
  { destruct self; simpl in *; congruence. }
  destruct (Rlt_dec _ _); unfold set_vel, set_acc;
    cbn [pos vel data prev_cell acc reward];
    by rewrite rmul_null, add_null_r, Hself.
Qed.

(** Witness of C6: a robot at rest at [(3, 4)], and [dt = 1/2]. *)
Lemma next_position_at_rest_witness :
  let r := Build BuildData.cls (Vec.Build 3 4) (3, 4)%Z Vec.null Vec.null 0 in
  next_position r Vec.null (1 / 2) = (r, Vec.Build 3 4).
Proof.
  intros r. exact (next_position_at_rest r (1 / 2) eq_refl eq_refl).
Defined.

End RobotFacts.

(** ** [save] and [load] *)

Module ControlFacts.
Import Control Sample.

(** [reverse_map] holds exactly the classes that are values of the
    registry, each under a name that the registry maps to it. *)
Lemma reverse_map_spec (reg : Registry) :
  (∀ t n, reverse_map reg !! t = Some n → reg !! n = Some t)
  ∧ (∀ t n, reg !! n = Some t → is_Some (reverse_map reg !! t)).
Proof.
  unfold reverse_map.
  apply (map_fold_weak_ind
    (λ (r : gmap class string) (m : gmap string class),
       (∀ t n, r !! t = Some n → m !! n = Some t)
       ∧ (∀ t n, m !! n = Some t → is_Some (r !! t)))).
  - split; intros t n; by rewrite lookup_empty.
  - intros i x m r Hi [IH1 IH2]. split; intros t n.
    + rewrite lookup_insert_Some. intros [[-> ->]|[Hne Hr]].
      * by rewrite lookup_insert_eq.
      * rewrite lookup_insert_ne; [by apply IH1|].
        intros ->. apply IH1 in Hr. congruence.
    + rewrite lookup_insert_Some. intros [[-> ->]|[Hne Hm]].
      * rewrite lookup_insert_eq. by eexists.
      * destruct (decide (x = t)) as [->|Hxt].
        -- rewrite lookup_insert_eq. by eexists.
        -- rewrite lookup_insert_ne by done. by eapply IH2.
Qed.

Lemma reverse_map_Some (reg : Registry) (t : class) (n : string) :
  reverse_map reg !! t = Some n → reg !! n = Some t.
Proof. apply reverse_map_spec. Qed.

Lemma reverse_map_None (reg : Registry) (t : class) :
  reverse_map reg !! t = None ↔ ∀ n, reg !! n ≠ Some t.
Proof.
  split.
  - intros Hnone n Hn.
    destruct (proj2 (reverse_map_spec reg) t n Hn) as [? ?]. congruence.
  - intros Hall. destruct (reverse_map reg !! t) as [n|] eqn:Hr; [|done].
    apply reverse_map_Some in Hr. by destruct (Hall n).
Qed.

Example reverse_map_CONTROLLERS :
  reverse_map CONTROLLERS !! RandomController = Some "random"
  ∧ reverse_map CONTROLLERS !! KeyboardController = Some "keyboard"
  ∧ reverse_map CONTROLLERS !! TabularController = Some "tabular".
Proof. repeat split; vm_compute; reflexivity. Qed.

Lemma zip_bind_unfold {A B} (m : zip A) (k : A → zip B) (ar : Archive) :
  (m ≫= k) ar =
    match m ar with
    | (ar', Ok a) => k a ar'
    | (ar', Raise e) => (ar', Raise e)
    end.
Proof. reflexivity. Qed.

Lemma writestr_bind {B} (n d : string) (k : () → zip B) (ar : Archive) :
  (writestr n d ≫= k) ar = k () (<[n := d]> ar).
Proof. reflexivity. Qed.

Section with_env.
Context `{Env}.

(** [save] on a controller whose class is not a value of the registry. *)
Lemma save_unregistered (reg : Registry) (c : controller Internals)
    (path : path_arg) (infos : option Infos) (fs : Files) :
  (∀ n, reg !! n ≠ Some (type c)) →
  save reg c path infos fs = (fs, Raise AssertionError).
Proof.
  intros Hnone%reverse_map_None. unfold save. by rewrite Hnone.
Qed.

(** C10.  [save] looks the kind up by the exact class of the controller:
    when this class is a strict subclass of a registered class and is not
    itself a value of the registry, [save] raises the assertion error (and
    writes nothing); the name of the registered ancestor is not used. *)
Theorem save_strict_subclass (reg : Registry) (c : controller Internals)
    (ancestor : class) (name : string)
    (path : path_arg) (infos : option Infos) (fs : Files) :
  issubclass (type c) ancestor = true → type c ≠ ancestor →
  reg !! name = Some ancestor →
  (∀ n, reg !! n ≠ Some (type c)) →
  save reg c path infos fs = (fs, Raise AssertionError).
Proof. intros _ _ _. apply save_unregistered. Qed.

(** [save] with [infos] omitted, case by case. *)
Lemma save_None_unfold (reg : Registry) (c : controller Internals)
    (path : path_arg) (fs : Files) :
  save reg c path None fs =
    match reverse_map reg !! type c with
    | None => (fs, Raise AssertionError)
    | Some name =>
        match path with
        | AStr _ => (fs, Raise AttributeError)
        | APath p =>
            match normalized p with
            | Raise e => (fs, Raise e)
            | Ok p' =>
                match save_to_archive c {["controller_class" := name]} with
                | (ar, Raise e) => (<[p' := ar]> fs, Raise e)
                | (ar, Ok _) => (<[p' := ar]> fs, Raise TypeError)
                end
            end
        end
    end.
Proof.
  unfold save, normalized.
  destruct (reverse_map reg !! type c) as [name|]; [|done].
  destruct path as [p|]; [|done].
  destruct (if bool_decide _ then _ else _) as [p'|]; [|done].
  rewrite writestr_bind, zip_bind_unfold, insert_empty.
  by destruct (save_to_archive c _) as [ar [[]|e]].
Qed.

(** C4.  [save] with [infos] omitted never returns a path: it raises, for
    every registry, controller, path and files.  For a registered
    controller whose payload is written without error, under a path that is
    normalised without error, the archive is created with the kind name and
    the payload, and then [_infos.update(None)] raises [TypeError]: the
    archive is left without the entry ["infos"]. *)
Theorem save_infos_omitted (reg : Registry) (c : controller Internals)
    (path : path_arg) (fs : Files) :
  (∃ e, snd (save reg c path None fs) = Raise e)
  ∧ ∀ name p p' ar,
      reverse_map reg !! type c = Some name →
      path = APath p →
      normalized p = Ok p' →
      save_to_archive c {["controller_class" := name]} = (ar, Ok ()) →
      save reg c path None fs = (<[p' := ar]> fs, Raise TypeError).
Proof.
  rewrite save_None_unfold. split.
  - destruct (reverse_map reg !! type c); [|by eexists].
    destruct path; [|by eexists].
    destruct (normalized _); [|by eexists].
    destruct (save_to_archive c _) as [ar [[]|e]]; by eexists.
  - intros name p p' ar -> -> -> ->. reflexivity.
Qed.

(** [save] with a dictionary [m]: what is written and returned. *)
Lemma save_with_infos (reg : Registry) (c : controller Internals)
    (p p' : Path) (m : Infos) (fs : Files) (name : string) (ar : Archive) :
  reverse_map reg !! type c = Some name →
  normalized p = Ok p' →
  save_to_archive c {["controller_class" := name]} = (ar, Ok tt) →
  save reg c (APath p) (Some m) fs
  = (<[p' := <["infos" := json_dumps (m ∪ infos c)]> ar]> fs, Ok p').
Proof.
  intros Hreg Hnorm Hsave. unfold save. unfold normalized in Hnorm.
  rewrite Hreg, Hnorm.
  rewrite writestr_bind, zip_bind_unfold, insert_empty, Hsave.
  reflexivity.
Qed.

(** [load] of what [save] has written, when the codec reads the merged
    dictionary back as [d]. *)
Lemma load_saved (reg : Registry) (c c0 : controller Internals)
    (p' : Path) (m d : Infos) (fs : Files) (name : string) (ar : Archive) :
  reverse_map reg !! type c = Some name →
  ar !! "controller_class" = Some name →
  load_from_archive (type c) (<["infos" := json_dumps (m ∪ infos c)]> ar)
  = Ok c0 →
  json_loads (json_dumps (m ∪ infos c)) = Ok d →
  load reg p' (<[p' := <["infos" := json_dumps (m ∪ infos c)]> ar]> fs)
  = Ok (set_infos c0 d).
Proof.
  intros Hreg Hclass Hload Hjson.
  unfold load. rewrite lookup_insert_eq. py_bind.
  unfold read, getitem.
  rewrite (lookup_insert_ne _ "infos" "controller_class");
    [|intros Heq; discriminate Heq].
  rewrite Hclass. py_bind.
  rewrite (reverse_map_Some _ _ _ Hreg). py_bind.
  rewrite Hload. py_bind.
  rewrite lookup_insert_eq. py_bind. by rewrite Hjson.
Qed.

(** The values of a dictionary that JSON reads back as they are. *)
Lemma json_image_id (d : Infos) :
  (∀ k v, d !! k = Some v → json_image v = v) → json_image <$> d = d.
Proof.
  intros Hd. apply map_eq. intros k. rewrite lookup_fmap.
  destruct (d !! k) as [v|] eqn:Hk; [|done]. simpl. by rewrite (Hd k v).
Qed.


End with_env.

(** *** The examples, in the environment [Sample] *)

Lemma unbits_bits (p : positive) : Sample.unbits (Sample.bits p) = Some p.
Proof. induction p as [p IH|p IH|]; simpl; by rewrite ?IH. Qed.

Lemma loads_dumps (d : Infos) : Sample.loads (Sample.dumps d) = Ok d.
Proof.
  unfold Sample.loads, Sample.dumps. rewrite unbits_bits. simpl.
  by rewrite decode_encode.
Qed.

(** Without [infos], [save] creates the archive, writes the kind name and
    the payload, and raises [TypeError]. *)
Example save_random_infos_omitted :
  save CONTROLLERS random_ctrl (APath ctrl_bin) None ∅
  = (<[ctrl_zip := random_archive]> ∅, Raise TypeError).
Proof.
  rewrite save_None_unfold.
  replace (reverse_map CONTROLLERS !! type random_ctrl) with (Some "random")
    by (vm_compute; reflexivity).
  reflexivity.
Qed.

(** Witness of C10: a controller of the class [MyRandom], a subclass of the
    registered [RandomController]. *)
Lemma save_strict_subclass_witness :
  save CONTROLLERS derived_ctrl (APath ctrl_zip) (Some ∅) ∅
  = (∅, Raise AssertionError).
Proof.
  apply (save_strict_subclass CONTROLLERS derived_ctrl RandomController
           "random").
  - reflexivity.
  - intros Heq. discriminate Heq.
  - reflexivity.
  - apply reverse_map_None. vm_compute. reflexivity.
Defined.

Lemma json_image_fixed (d : Infos) :
  json_image <$> d = d → ∀ k v, d !! k = Some v → json_image v = v.
Proof.
  intros Hd k v Hk.
  assert (Hf : (json_image <$> d) !! k = Some (json_image v))
    by (by rewrite lookup_fmap, Hk).
  rewrite Hd, Hk in Hf. by injection Hf.
Qed.

(** The codec of [Sample.json_env] reads a dictionary back as its JSON
    image. *)
Lemma json_env_loads_dumps (d : Infos) :
  @json_loads Sample.json_env (@json_dumps Sample.json_env d)
  = Ok (json_image <$> d).
Proof. apply loads_dumps. Qed.

(** The kind of [Sample] reads its payload back from the archive of
    [random_ctrl], whatever the entry ["infos"]. *)
Lemma sample_load_from_archive (data : string) :
  @load_from_archive Sample.json_env RandomController
    (<["infos" := data]> random_archive)
  = Ok (Controller RandomController ∅ "state of the kind").
Proof.
  cbn [load_from_archive Sample.json_env]. unfold read, getitem, random_archive.
  rewrite lookup_insert_ne; [|intros Heq; discriminate Heq].
  rewrite lookup_insert_eq. reflexivity.
Qed.



Example merged_infos :
  let m : Infos := <["algo" := VStr "PPO"]> (<["score" := VInt 7]> ∅) in
  (m ∪ infos random_ctrl) !! "algo" = Some (VStr "PPO")
  ∧ (m ∪ infos random_ctrl) !! "score" = Some (VInt 7)
  ∧ (m ∪ infos random_ctrl) !! "seed" = Some (VInt 3).
Proof. repeat split; vm_compute; reflexivity. Qed.

End ControlFacts.

(* ===================================================================== *)
(** * Further properties                                                  *)
(* ===================================================================== *)

(** ** More on [from_string] and [to_string] *)

Module BuildDataMore.
Import BuildData BuildDataFacts.

Lemma int_nonneg (s : string) (v : Z) : int s = Ok v → (0 ≤ v)%Z.
Proof.
  unfold int. destruct s as [|c s]; [done|].
  destruct (NilEmpty.uint_of_string _) as [d|]; [|done].
  intros [= <-]. unfold Z.of_uint. lia.
Qed.

Lemma shorthands_inv (k : string) (i : InputType.t) (o : OutputType.t) :
  getitem shorthands k = Ok (i, o) →
  (i, o) = (InputType.DISCRETE, OutputType.DISCRETE)
  ∨ (i, o) = (InputType.CONTINUOUS, OutputType.DISCRETE)
  ∨ (i, o) = (InputType.CONTINUOUS, OutputType.CONTINUOUS).
Proof.
  unfold getitem, shorthands.
  destruct (_ !! k) as [[i' o']|] eqn:Hl; [|done]. intros [= -> ->].
  repeat (apply lookup_insert_Some in Hl as [[_ Hl]|[_ Hl]];
          [injection Hl as <- <-; tauto|]).
  done.
Qed.

(** A code that [from_string] accepts has two characters or more. *)
Lemma from_string_Ok_length (robot : string) (bd : t) :
  from_string robot = Ok bd → ∃ c0 c1 ds, robot = String c0 (String c1 ds).
Proof.
  destruct robot as [|c0 [|c1 ds]].
  - intros H. discriminate H.
  - unfold from_string. py_strings. py_bind.
    destruct (bool_decide _); intros H; discriminate H.
  - by eexists _, _, _.
Qed.

Lemma read_vision_inv (bd bd' : t) (digits : string) :
  read_vision bd digits = Ok bd' →
  ∃ v, bd' = set_vision bd v ∧ (0 ≤ v)%Z ∧ (v `mod` 2)%Z = 1%Z.
Proof.
  unfold read_vision.
  destruct (int digits) as [v|] eqn:Hint; py_bind; [|done].
  cbn [vision set_vision]. case_bool_decide as Hodd; [done|].
  intros [= <-]. exists v. split; [done|]. split; [by eapply int_nonneg|].
  by destruct (decide ((v `mod` 2)%Z = 1%Z)).
Qed.

(** What [from_string] can return: the types of a legal pair, and either
    the default vision size or, for continuous inputs, an odd one read from
    the digits. *)
Lemma from_string_inv (robot : string) (bd : t) :
  from_string robot = Ok bd →
  ∃ i o v,
    bd = parsed i o v
    ∧ ¬ (i = InputType.DISCRETE ∧ o = OutputType.CONTINUOUS)
    ∧ (v = 15%Z
       ∨ (i = InputType.CONTINUOUS ∧ (0 ≤ v)%Z ∧ (v `mod` 2)%Z = 1%Z)).
Proof.
  intros Hok. destruct (from_string_Ok_length _ _ Hok) as (c0 & c1 & ds & ->).
  revert Hok. rewrite from_string_unfold.
  destruct (bool_decide (c0 ∈ _)); py_bind; [|done].
  destruct (_ || _); py_bind; [|done].
  destruct (all_isdigit ds); py_bind; [|done].
  assert (Hfinal : ∀ i o digits,
    ¬ (i = InputType.DISCRETE ∧ o = OutputType.CONTINUOUS) →
    (if bool_decide (i = InputType.CONTINUOUS) && negb (bool_decide (ds = ""))
     then read_vision (set_io cls i o) digits
     else Ok (set_io cls i o)) = Ok bd →
    ∃ i o v,
      bd = parsed i o v
      ∧ ¬ (i = InputType.DISCRETE ∧ o = OutputType.CONTINUOUS)
      ∧ (v = 15%Z
         ∨ (i = InputType.CONTINUOUS ∧ (0 ≤ v)%Z ∧ (v `mod` 2)%Z = 1%Z))).
  { intros i o digits Hleg.
    case_bool_decide as Hi; cbn [andb].
    - destruct (negb _).
      + intros (v & -> & Hv & Hodd)%read_vision_inv.
        exists i, o, v. split; [done|]. split; [done|]. right. done.
      + intros [= <-]. exists i, o, 15%Z. split; [done|]. split; [done|].
        by left.
    - intros [= <-]. exists i, o, 15%Z. split; [done|]. split; [done|].
      by left. }
  destruct (isalpha c1).
  - destruct (getitem string_to_input _) as [i|]; py_bind; [|done].
    destruct (getitem string_to_output _) as [o|]; py_bind; [|done].
    destruct (bool_decide (i = InputType.DISCRETE)
              && bool_decide (o = OutputType.CONTINUOUS)) eqn:Hhyb; [done|].
    apply Hfinal. intros [-> ->]. discriminate Hhyb.
  - destruct (getitem shorthands _) as [[i o]|] eqn:Hsh; py_bind; [|done].
    apply Hfinal. intros [-> ->].
    apply shorthands_inv in Hsh as [Hsh|[Hsh|Hsh]]; discriminate Hsh.
Qed.

(** [to_string] then [from_string] on the build data with default
    controller fields. *)
Lemma from_string_to_string_parsed (i : InputType.t) (o : OutputType.t)
    (v : Z) :
  ¬ (i = InputType.DISCRETE ∧ o = OutputType.CONTINUOUS) →
  (v = 15%Z
   ∨ (i = InputType.CONTINUOUS ∧ (0 ≤ v)%Z ∧ (v `mod` 2)%Z = 1%Z)) →
  from_string (to_string (parsed i o v)) = Ok (parsed i o v).
Proof.
  intros Hleg Hv. destruct i.
  - assert (v = 15%Z) as -> by (destruct Hv as [|[Hi _]]; [done|discriminate Hi]).
    destruct o; [reflexivity|]. destruct Hleg. done.
  - assert (0 < v ∧ v `mod` 2 = 1)%Z as [Hpos Hodd].
    { destruct Hv as [->|(_ & Hv & Hodd)]; [done|].
      split; [|done]. destruct (decide (v = 0%Z)) as [->|]; [done|lia]. }
    rewrite <-(from_string_continuous_pair o v Hpos Hodd). reflexivity.
Qed.

(** X1.  [from_string] only returns build data that satisfy the invariant
    of the data model: never the pair of discrete inputs and continuous
    outputs, a vision size that is positive and odd and that differs from
    the default only for continuous inputs; the controller fields have
    their defaults. *)
Theorem from_string_valid (robot : string) (bd : t) :
  from_string robot = Ok bd →
  valid bd ∧ vision_set_only_if_continuous bd
  ∧ control bd = "random" ∧ control_data bd = Some ∅.
Proof.
  intros (i & o & v & -> & Hleg & Hv)%from_string_inv.
  split; [|split; [|done]].
  - split; [exact Hleg|]. cbn [vision parsed set_vision].
    destruct Hv as [->|(_ & Hv & Hodd)]; [done|].
    split; [|done]. destruct (decide (v = 0%Z)) as [->|]; [done|lia].
  - intros Hne. cbn in Hne. destruct Hv as [->|(-> & _)]; done.
Qed.

Lemma from_string_valid_witness :
  valid (parsed InputType.CONTINUOUS OutputType.DISCRETE 21).
Proof.
  exact (proj1 (from_string_valid "H21" _ eq_refl)).
Defined.

(** X2.  What [from_string] returns is stable under re-encoding: if
    [from_string(code)] returns [bd], then [from_string(to_string(bd))]
    returns [bd] again, whatever the form of [code] (shorthand, leading
    zeros). *)
Theorem from_string_to_string_from_string (robot : string) (bd : t) :
  from_string robot = Ok bd → from_string (to_string bd) = Ok bd.
Proof.
  intros (i & o & v & -> & Hleg & Hv)%from_string_inv.
  by apply from_string_to_string_parsed.
Qed.

Lemma from_string_to_string_from_string_witness :
  to_string (parsed InputType.CONTINUOUS OutputType.DISCRETE 7) = "CD7"
  ∧ from_string "CD7"
    = Ok (parsed InputType.CONTINUOUS OutputType.DISCRETE 7).
Proof.
  split; [reflexivity|].
  exact (from_string_to_string_from_string "H007" _ eq_refl).
Defined.

(** X3.  For a code of three characters or more that decodes to continuous
    inputs, the digits after the letters are the vision size: [from_string]
    returns it when it is odd and raises the error of the even size
    otherwise.  The digits are all the characters after the pair of
    letters, or after the shorthand letter. *)
Theorem from_string_reads_vision (c0 c1 : ascii) (ds : string)
    (o : OutputType.t) (v : Z) :
  decode_io (String c0 (String c1 ds)) = Ok (InputType.CONTINUOUS, o) →
  ds ≠ "" →
  int (if isalpha c1 then ds else String c1 ds) = Ok v →
  from_string (String c0 (String c1 ds)) =
    if bool_decide ((v `mod` 2)%Z = 1%Z)
    then Ok (parsed InputType.CONTINUOUS o v)
    else Raise (ValueError odd_msg).
Proof.
  rewrite decode_io_unfold, from_string_unfold. intros Hdec Hds Hint.
  revert Hdec.
  destruct (bool_decide (c0 ∈ _)); py_bind; [|done].
  destruct (_ || _); py_bind; [|done].
  destruct (all_isdigit ds); py_bind; [|done].
  rewrite (bool_decide_eq_false_2 (ds = "")) by done.
  assert (Hread : ∀ digits, int digits = Ok v →
    read_vision (set_io cls InputType.CONTINUOUS o) digits =
      if bool_decide ((v `mod` 2)%Z = 1%Z)
      then Ok (parsed InputType.CONTINUOUS o v)
      else Raise (ValueError odd_msg)).
  { intros digits Hd. unfold read_vision. rewrite Hd. py_bind.
    cbn [vision set_vision].
    destruct (decide ((v `mod` 2)%Z = 1%Z)) as [Hodd|Hodd].
    - rewrite bool_decide_eq_false_2 by (by intros []).
      by rewrite bool_decide_eq_true_2.
    - rewrite bool_decide_eq_true_2 by done.
      by rewrite bool_decide_eq_false_2. }
  destruct (isalpha c1).
  - destruct (getitem string_to_input _) as [i|]; py_bind; [|done].
    destruct (getitem string_to_output _) as [o'|]; py_bind; [|done].
    intros [= -> ->]. cbn [bool_decide decide_rel andb negb]. by apply Hread.
  - destruct (getitem shorthands _) as [[i o']|]; py_bind; [|done].
    intros [= -> ->]. cbn [bool_decide decide_rel andb negb]. by apply Hread.
Qed.

Lemma from_string_reads_vision_witness :
  from_string "H21" = Ok (parsed InputType.CONTINUOUS OutputType.DISCRETE 21)
  ∧ from_string "CC12" = Raise (ValueError odd_msg).
Proof.
  split.
  - refine (from_string_reads_vision "H" "2" "1" OutputType.DISCRETE 21
              eq_refl _ eq_refl).
    intros Heq. discriminate Heq.
  - refine (from_string_reads_vision "C" "C" "12" OutputType.CONTINUOUS 12
              eq_refl _ eq_refl).
    intros Heq. discriminate Heq.
Defined.

(** X4.  The letter [H] is a shorthand only: in the pair form, [HD] or
    [HC] followed by any digits raises [KeyError], as [H] is not the
    letter of an input type. *)
Theorem from_string_H_pair (c1 : ascii) (ds : string) :
  c1 ∈ ["D"; "C"]%char →
  from_string (String "H" (String c1 ds)) =
    if all_isdigit ds then Raise KeyError else Raise AssertionError.
Proof.
  intros Hc1. rewrite from_string_unfold.
  assert (c1 = "D" ∨ c1 = "C")%char as [->| ->].
  { rewrite !elem_of_cons in Hc1. rewrite elem_of_nil in Hc1. tauto. }
  - by destruct (all_isdigit ds).
  - by destruct (all_isdigit ds).
Qed.

Lemma from_string_H_pair_witness : from_string "HC15" = Raise KeyError.
Proof.
  refine (from_string_H_pair "C" "15" _).
  rewrite !elem_of_cons. tauto.
Defined.

(** [to_string] does not read the controller fields. *)
Lemma to_string_parsed (b : t) :
  to_string b = to_string (parsed (inputs b) (outputs b) (vision b)).
Proof. by destruct b. Qed.

Lemma valid_parsed (b : t) :
  valid b → vision_set_only_if_continuous b →
  ¬ (inputs b = InputType.DISCRETE ∧ outputs b = OutputType.CONTINUOUS)
  ∧ (vision b = 15%Z
     ∨ (inputs b = InputType.CONTINUOUS ∧ (0 ≤ vision b)%Z
        ∧ (vision b `mod` 2)%Z = 1%Z)).
Proof.
  intros (Hleg & Hpos & Hodd) Hset. split; [exact Hleg|].
  destruct (decide (vision b = 15%Z)) as [|Hne]; [by left|].
  right. split; [by apply Hset|]. split; [lia|done].
Qed.

(** X5.  [to_string] is injective on valid build data, up to the
    controller fields: two valid build data (vision size differing from
    the default only for continuous inputs) with the same string have the
    same inputs, outputs and vision size. *)
Theorem to_string_inj (b1 b2 : t) :
  valid b1 → vision_set_only_if_continuous b1 →
  valid b2 → vision_set_only_if_continuous b2 →
  to_string b1 = to_string b2 →
  inputs b1 = inputs b2 ∧ outputs b1 = outputs b2 ∧ vision b1 = vision b2.
Proof.
  intros Hv1 Hs1 Hv2 Hs2 Heq.
  destruct (valid_parsed b1 Hv1 Hs1) as [Hl1 Hx1].
  destruct (valid_parsed b2 Hv2 Hs2) as [Hl2 Hx2].
  pose proof (from_string_to_string_parsed _ _ _ Hl1 Hx1) as H1.
  pose proof (from_string_to_string_parsed _ _ _ Hl2 Hx2) as H2.
  rewrite <-to_string_parsed in H1, H2. rewrite Heq, H2 in H1.
  by injection H1 as -> -> ->.
Qed.

Lemma to_string_inj_witness :
  let b1 := Build InputType.CONTINUOUS OutputType.DISCRETE 9 "random" (Some ∅) in
  let b2 := Build InputType.CONTINUOUS OutputType.DISCRETE 9 "keyboard" None in
  to_string b1 = to_string b2
  ∧ inputs b1 = inputs b2 ∧ outputs b1 = outputs b2 ∧ vision b1 = vision b2.
Proof.
  intros b1 b2. split; [reflexivity|].
  apply (to_string_inj b1 b2).
  - split; [|done]. intros [Hi _]. discriminate Hi.
  - intros _. reflexivity.
  - split; [|done]. intros [Hi _]. discriminate Hi.
  - intros _. reflexivity.
  - reflexivity.
Defined.

End BuildDataMore.

(** ** [from_controller] and [check_types] *)

Module ProtocolFacts.
Import BuildData BuildDataFacts FromController Factory.

(** The vision size that [from_controller] gives to the build data. *)
Lemma from_controller_single (c : Protocol.t) (i : InputType.t)
    (o : OutputType.t) :
  Protocol.inputs_types c = [i] → Protocol.outputs_types c = [o] →
  from_controller c =
    Ok (parsed i o (match i, Protocol.vision c with
                    | InputType.CONTINUOUS, Some v => v
                    | _, _ => 15%Z
                    end)).
Proof.
  intros Hi Ho. unfold from_controller. rewrite Hi, Ho.
  destruct i, (Protocol.vision c); reflexivity.
Qed.

Lemma from_controller_inv (c : Protocol.t) (bd : BuildData.t) :
  from_controller c = Ok bd →
  ∃ i o, Protocol.inputs_types c = [i] ∧ Protocol.outputs_types c = [o]
         ∧ bd = parsed i o (match i, Protocol.vision c with
                            | InputType.CONTINUOUS, Some v => v
                            | _, _ => 15%Z
                            end).
Proof.
  destruct c as [[|i [|i' li]] [|o [|o' lo]] v];
    try (intros H; discriminate H).
  intros Hok. exists i, o. split; [done|]. split; [done|].
  rewrite (from_controller_single (Protocol.Build [i] [o] v) i o
             eq_refl eq_refl) in Hok.
  by injection Hok.
Qed.

(** X6.  [from_controller] succeeds exactly when the controller has one
    input type and one output type.  It then returns these types, with the
    vision size of the controller when the inputs are continuous and the
    controller has one, and the default size 15 otherwise; the vision size
    of a controller with discrete inputs is not read. *)
Theorem from_controller_Ok (c : Protocol.t) (bd : BuildData.t) :
  from_controller c = Ok bd ↔
  ∃ i o, Protocol.inputs_types c = [i] ∧ Protocol.outputs_types c = [o]
         ∧ bd = parsed i o (match i, Protocol.vision c with
                            | InputType.CONTINUOUS, Some v => v
                            | _, _ => 15%Z
                            end).
Proof.
  split; [apply from_controller_inv|].
  intros (i & o & Hi & Ho & ->). by apply from_controller_single.
Qed.

(** X7.  The errors of [from_controller]: with more than one input type
    it raises the error of the input types, whatever the output types are;
    with one input type and more than one output type, the error of the
    output types; with an empty list of input types, [IndexError]. *)
Theorem from_controller_errors (c : Protocol.t) :
  match Protocol.inputs_types c, Protocol.outputs_types c with
  | _ :: _ :: _, _ => from_controller c = Raise (_err "input")
  | [], _ => from_controller c = Raise IndexError
  | [_], _ :: _ :: _ => from_controller c = Raise (_err "output")
  | [_], [] => from_controller c = Raise IndexError
  | [_], [_] => ∃ bd, from_controller c = Ok bd
  end.
Proof.
  destruct c as [[|i [|i' li]] [|o [|o' lo]] v]; cbn [Protocol.inputs_types
    Protocol.outputs_types]; try reflexivity.
  eexists. by apply (from_controller_single _ i o).
Qed.

Example _err_message :
  _err "input" = ValueError
    "Controller can handle more than one inputtype. Please use the other constructor tospecify".
Proof. reflexivity. Qed.

(** X8.  [check_types] returns [True] exactly when the input type of the
    robot is among the input types of the controller and its output type
    among the output types; otherwise it raises [AssertionError].  It never
    returns [False]. *)
Theorem check_types_spec (c : Protocol.t) (robot : BuildData.t) :
  (check_types c robot = Ok true ↔
     inputs robot ∈ Protocol.inputs_types c
     ∧ outputs robot ∈ Protocol.outputs_types c)
  ∧ (check_types c robot = Ok true
     ∨ check_types c robot = Raise AssertionError).
Proof.
  unfold check_types.
  destruct (decide (inputs robot ∈ Protocol.inputs_types c)) as [Hi|Hi];
  destruct (decide (outputs robot ∈ Protocol.outputs_types c)) as [Ho|Ho];
    rewrite ?(bool_decide_eq_true_2 _ Hi), ?(bool_decide_eq_false_2 _ Hi);
    py_bind;
    rewrite ?(bool_decide_eq_true_2 _ Ho), ?(bool_decide_eq_false_2 _ Ho);
    py_bind; (split; [split; [try done; intros; tauto|tauto]|tauto]).
Qed.

(** X9.  The build data that [from_controller] derives from a controller
    is compatible with it: [check_types] returns [True] on them. *)
Theorem check_types_from_controller (c : Protocol.t) (bd : BuildData.t) :
  from_controller c = Ok bd → check_types c bd = Ok true.
Proof.
  intros (i & o & Hi & Ho & ->)%from_controller_inv.
  unfold check_types. rewrite Hi, Ho.
  change (inputs (parsed i o _)) with i. change (outputs (parsed i o _)) with o.
  rewrite !bool_decide_eq_true_2 by (apply list_elem_of_singleton; done).
  reflexivity.
Qed.

Lemma check_types_from_controller_witness :
  let c := Protocol.Build [InputType.CONTINUOUS] [OutputType.DISCRETE] (Some 9%Z) in
  from_controller c = Ok (parsed InputType.CONTINUOUS OutputType.DISCRETE 9)
  ∧ check_types c (parsed InputType.CONTINUOUS OutputType.DISCRETE 9) = Ok true.
Proof.
  intros c. split; [reflexivity|].
  exact (check_types_from_controller c _ eq_refl).
Defined.

(** X10.  A wrapped model of stable baselines declares every input and
    output type ([inputs_types()] is [list(InputType)], [outputs_types()]
    is [list(OutputType)]).  So [check_types] returns [True] on it for
    every build data, the pair of discrete inputs and continuous outputs
    included, and [from_controller] raises the error of the input types on
    it, whatever its vision size. *)
Theorem SB3_protocol_all_types (v : option Z) :
  from_controller (SB3.protocol v) = Raise (_err "input")
  ∧ ∀ robot, check_types (SB3.protocol v) robot = Ok true.
Proof. split; [reflexivity|]. by intros [[] [] ? ? ?]. Qed.

(** X11.  The build data derived from a controller survive the string
    codec: for a controller with one input type and one output type, not
    discrete inputs with continuous outputs, and with no vision size or a
    positive odd one, [from_string(to_string(bd))] returns the build data
    [bd] of [from_controller]. *)
Theorem from_controller_roundtrip (c : Protocol.t) (i : InputType.t)
    (o : OutputType.t) :
  Protocol.inputs_types c = [i] → Protocol.outputs_types c = [o] →
  ¬ (i = InputType.DISCRETE ∧ o = OutputType.CONTINUOUS) →
  (∀ v, Protocol.vision c = Some v → (0 < v)%Z ∧ (v `mod` 2)%Z = 1%Z) →
  ∃ bd, from_controller c = Ok bd ∧ from_string (to_string bd) = Ok bd.
Proof.
  intros Hi Ho Hleg Hv. eexists. split; [by apply from_controller_single|].
  apply BuildDataMore.from_string_to_string_parsed; [done|].
  destruct i; [by left|].
  destruct (Protocol.vision c) as [v|]; [|by left].
  right. destruct (Hv v eq_refl). split; [done|]. split; [lia|done].
Qed.

Lemma from_controller_roundtrip_witness :
  let c := Protocol.Build [InputType.CONTINUOUS] [OutputType.CONTINUOUS] (Some 11%Z) in
  ∃ bd, from_controller c = Ok bd ∧ from_string (to_string bd) = Ok bd.
Proof.
  intros c.
  apply (from_controller_roundtrip c InputType.CONTINUOUS OutputType.CONTINUOUS).
  - reflexivity.
  - reflexivity.
  - intros [Hi _]. discriminate Hi.
  - intros v [= <-]. done.
Defined.

(** X12.  [from_controller] does not check the invariant of the data
    model: for a controller with discrete inputs and continuous outputs it
    returns this pair, which [from_string] rejects when the build data are
    written with [to_string] and read again. *)
Theorem from_controller_hybrid (c : Protocol.t) :
  Protocol.inputs_types c = [InputType.DISCRETE] →
  Protocol.outputs_types c = [OutputType.CONTINUOUS] →
  ∃ bd, from_controller c = Ok bd ∧ hybrid bd
        ∧ from_string (to_string bd) = Raise (ValueError hybrid_msg).
Proof.
  intros Hi Ho. eexists. split; [by apply from_controller_single|].
  by repeat split.
Qed.

Lemma from_controller_hybrid_witness :
  let c := Protocol.Build [InputType.DISCRETE] [OutputType.CONTINUOUS] None in
  ∃ bd, from_controller c = Ok bd ∧ hybrid bd
        ∧ from_string (to_string bd) = Raise (ValueError hybrid_msg).
Proof.
  intros c. exact (from_controller_hybrid c eq_refl eq_refl).
Defined.

End ProtocolFacts.

(** ** [controller_factory] *)

Module FactoryFacts.
Import Control Factory.

Lemma lower_char_idemp (c : ascii) : lower_char (lower_char c) = lower_char c.
Proof. destruct c as [[] [] [] [] [] [] [] []]; vm_compute; reflexivity. Qed.

Lemma lower_idemp (s : string) : lower (lower s) = lower s.
Proof.
  induction s as [|c s IH]; [done|]. simpl. by rewrite lower_char_idemp, IH.
Qed.

(** X13.  [controller_factory] does not depend on the case of the kind
    name: it gives the same result for [c_type] and for [c_type.lower()].
    So it gives the same result for the [control] field of a build data
    before and after [__post_init__]. *)
Theorem controller_factory_lower {C : Type}
    (construct : class → gmap string value → result C) (reg : Registry)
    (c_type : string) (c_data : gmap string value) (robot : BuildData.t) :
  controller_factory construct reg (lower c_type) c_data
  = controller_factory construct reg c_type c_data
  ∧ controller_factory construct reg
      (BuildData.control (BuildData.post_init robot)) c_data
    = controller_factory construct reg (BuildData.control robot) c_data.
Proof.
  unfold controller_factory. cbn [BuildData.control BuildData.post_init].
  by rewrite !lower_idemp.
Qed.

(** X14.  [controller_factory] only looks up lowercase names: a kind
    registered under a name that is not its own lowercase form is never
    found, and removing it from the registry changes no result. *)
Theorem controller_factory_ignores_key {C : Type}
    (construct : class → gmap string value → result C) (reg : Registry)
    (k c_type : string) (c_data : gmap string value) :
  lower k ≠ k →
  controller_factory construct (delete k reg) c_type c_data
  = controller_factory construct reg c_type c_data.
Proof.
  intros Hk. unfold controller_factory, getitem.
  rewrite lookup_delete_ne; [done|].
  intros ->. by rewrite lower_idemp in Hk.
Qed.

Lemma controller_factory_ignores_key_witness :
  controller_factory (λ cls _, Ok cls)
    (delete "Random" (<["Random" := RandomController]> CONTROLLERS)) "Random" ∅
  = controller_factory (λ cls _, Ok cls)
      (<["Random" := RandomController]> CONTROLLERS) "Random" ∅.
Proof.
  apply controller_factory_ignores_key.
  intros Heq. discriminate Heq.
Defined.

Example controller_factory_RANDOM :
  controller_factory (λ cls _, Ok cls) CONTROLLERS "RANDOM" ∅
  = Ok RandomController.
Proof. vm_compute. reflexivity. Qed.

Example controller_factory_unknown :
  controller_factory (λ cls _, Ok cls) CONTROLLERS "sb3" ∅ = Raise KeyError.
Proof. vm_compute. reflexivity. Qed.

End FactoryFacts.

(** ** The wrapper of stable baselines *)

Module SB3Facts.
Import Control SB3.

Lemma InputType_getitem_name (i : InputType.t) :
  InputType_getitem (VStr (InputType.name i)) = Ok i.
Proof. by destruct i. Qed.

Lemma OutputType_getitem_name (o : OutputType.t) :
  OutputType_getitem (VStr (OutputType.name o)) = Ok o.
Proof. by destruct o. Qed.

Lemma save_infos_load_arguments_aux (self : attributes) (i : InputType.t)
    (o : OutputType.t) (own : Infos) :
  _input_type self = Some i → _output_type self = Some o →
  ∃ m, save_infos self = Ok m
       ∧ load_arguments (m ∪ own) = Ok (i, o, vision_value (_vision self)).
Proof.
  intros Hi Ho. unfold save_infos. rewrite Hi, Ho. eexists. split; [done|].
  unfold load_arguments, getitem.
  rewrite !lookup_union.
  rewrite (lookup_insert_ne _ "algo" "inputs"),
          (lookup_insert_eq _ "inputs") by done.
  rewrite (lookup_insert_ne _ "algo" "outputs"),
          (lookup_insert_ne _ "inputs" "outputs"),
          (lookup_insert_eq _ "outputs") by done.
  rewrite (lookup_insert_ne _ "algo" "vision"),
          (lookup_insert_ne _ "inputs" "vision"),
          (lookup_insert_ne _ "outputs" "vision"),
          (lookup_insert_eq _ "vision") by done.
  rewrite !union_Some_l. py_bind.
  rewrite InputType_getitem_name. py_bind.
  rewrite OutputType_getitem_name. reflexivity.
Qed.


(** X15.  The dictionary that [SB3Controller.save] passes to [save]
    brings the types and the vision size back: after the merge with the
    [infos] of the controller, in which the keys of the caller win, the
    arguments that [load_from_archive] reads from it are the input type,
    the output type and the vision size that the controller had at [save],
    whatever its own [infos] hold under these keys. *)
Theorem save_infos_load_arguments (self : attributes) (i : InputType.t)
    (o : OutputType.t) (own : Infos) :
  _input_type self = Some i → _output_type self = Some o →
  ∃ m, save_infos self = Ok m
       ∧ load_arguments (m ∪ own) = Ok (i, o, vision_value (_vision self)).
Proof. apply save_infos_load_arguments_aux. Qed.

Lemma save_infos_load_arguments_witness :
  let self := Attributes "PPO" (Some InputType.CONTINUOUS)
                (Some OutputType.DISCRETE) (Some 11%Z) in
  let own : Infos := <["inputs" := VStr "DISCRETE"]> (<["seed" := VInt 3]> ∅) in
  ∃ m, save_infos self = Ok m
       ∧ load_arguments (m ∪ own)
         = Ok (InputType.CONTINUOUS, OutputType.DISCRETE, VInt 11).
Proof.
  intros self own.
  exact (save_infos_load_arguments self InputType.CONTINUOUS
           OutputType.DISCRETE own eq_refl eq_refl).
Defined.

Section with_env.
Context `{Env}.

(** X16.  [SB3Controller.save] declares [path: str], and with a string it
    never succeeds: [save] raises ([AssertionError] for a class that is
    not registered, [AttributeError] at [path.suffix] otherwise, or the
    error of an attribute that is [None]) and no file is written. *)
Theorem save_str_path (reg : Registry) (self : controller Internals)
    (attrs : attributes) (s : string) (fs : Files) :
  ∃ e, SB3.save reg self attrs (AStr s) fs = (fs, Raise e)
       ∧ (e = AssertionError ∨ e = AttributeError).
Proof.
  unfold SB3.save. destruct (save_infos attrs) as [m|e] eqn:Hm.
  - unfold Control.save.
    destruct (reverse_map reg !! type self); eexists; (split; [done|tauto]).
  - exists e. split; [done|]. right. revert Hm. unfold save_infos.
    destruct (_input_type attrs); py_bind; [|by intros [= <-]].
    destruct (_output_type attrs); py_bind; [done|by intros [= <-]].
Qed.


End with_env.


(** X18.  The arguments of [_setup_model]: they exist only for an
    observation space of one dimension (discrete inputs) or of three
    (continuous inputs) and an action space that is [Discrete] or [Box];
    the vision size is [None] exactly when the input type that the
    controller had before the call is discrete, and [shape[1]] otherwise.
    So for a controller whose previous input type is not discrete, an
    observation space of one dimension gives no arguments ([shape[1]]
    raises [IndexError]). *)
Theorem setup_arguments_Ok (prev : option InputType.t) (shape : list Z)
    (space : space_class) (i : InputType.t) (o : OutputType.t)
    (v : option Z) :
  setup_arguments prev shape space = Ok (i, o, v) →
  (length shape = 1%nat ∧ i = InputType.DISCRETE
   ∨ length shape = 3%nat ∧ i = InputType.CONTINUOUS)
  ∧ (space = Discrete ∧ o = OutputType.DISCRETE
     ∨ space = Box ∧ o = OutputType.CONTINUOUS)
  ∧ (if bool_decide (prev = Some InputType.DISCRETE) then v = None
     else length shape = 3%nat ∧ v = shape !! 1%nat ∧ is_Some v).
Proof.
  unfold setup_arguments.
  destruct (_i_types_mapping !! length shape) as [i'|] eqn:Hlen; py_bind;
    [|done].
  destruct (_o_types_mapping space) as [o'|] eqn:Hsp; py_bind; [|done].
  assert (Hshape : length shape = 1%nat ∧ i' = InputType.DISCRETE
                   ∨ length shape = 3%nat ∧ i' = InputType.CONTINUOUS).
  { unfold _i_types_mapping in Hlen.
    apply lookup_insert_Some in Hlen as [[<- <-]|[_ Hlen]]; [by left|].
    apply lookup_insert_Some in Hlen as [[<- <-]|[_ Hlen]]; [by right|].
    done. }
  assert (Hspace : space = Discrete ∧ o' = OutputType.DISCRETE
                   ∨ space = Box ∧ o' = OutputType.CONTINUOUS).
  { destruct space; simpl in Hsp; [left|right|done]; by injection Hsp. }
  case_bool_decide as Hprev; py_bind.
  - intros [= <- <- <-]. done.
  - destruct (shape !! 1%nat) as [n|] eqn:Hn; py_bind; [|done].
    intros [= <- <- <-]. split; [done|]. split; [done|].
    split; [|by split; [|eexists]].
    destruct Hshape as [[Hone _]|[Hthree _]]; [|done].
    apply lookup_lt_Some in Hn. lia.
Qed.

Lemma setup_arguments_Ok_witness :
  setup_arguments None [4; 11; 11]%Z Box
  = Ok (InputType.CONTINUOUS, OutputType.CONTINUOUS, Some 11%Z)
  ∧ length [4; 11; 11]%Z = 3%nat.
Proof.
  split; [reflexivity|].
  exact (proj1 (proj2 (proj2 (setup_arguments_Ok None [4; 11; 11]%Z Box
           InputType.CONTINUOUS OutputType.CONTINUOUS (Some 11%Z)
           eq_refl)))).
Defined.

Example setup_arguments_one_dimension :
  setup_arguments None [5]%Z Discrete = Raise IndexError
  ∧ setup_arguments (Some InputType.DISCRETE) [5]%Z Discrete
    = Ok (InputType.DISCRETE, OutputType.DISCRETE, None).
Proof. split; reflexivity. Qed.

End SB3Facts.

(** ** More on [save] and [load] *)

Module ControlMore.
Import Control ControlFacts.

(** X19.  The kind name survives the registry: every registered class has
    a name in [reverse_map], and the name that [save] writes for a class is
    one under which [load] finds this same class.  When the class is
    registered under one name only, it is that name. *)
Theorem reverse_map_roundtrip (reg : Registry) (n : string) (T : class) :
  reg !! n = Some T →
  ∃ n', reverse_map reg !! T = Some n' ∧ reg !! n' = Some T
        ∧ ((∀ k, reg !! k = Some T → k = n) → n' = n).
Proof.
  intros Hn.
  destruct (proj2 (reverse_map_spec reg) T n Hn) as [n' Hn'].
  exists n'. split; [done|].
  pose proof (reverse_map_Some reg T n' Hn') as Hback.
  split; [done|]. intros Huniq. by apply Huniq.
Qed.

Lemma reverse_map_roundtrip_witness :
  ∃ n', reverse_map CONTROLLERS !! TabularController = Some n'
        ∧ CONTROLLERS !! n' = Some TabularController
        ∧ ((∀ k, CONTROLLERS !! k = Some TabularController → k = "tabular")
           → n' = "tabular").
Proof.
  apply (reverse_map_roundtrip CONTROLLERS "tabular" TabularController).
  reflexivity.
Defined.

Section with_env.
Context `{Env}.

(** [save], case by case. *)
Lemma save_unfold (reg : Registry) (c : controller Internals)
    (p : Path) (infos : option Infos) (fs : Files) :
  save reg c (APath p) infos fs =
    match reverse_map reg !! type c with
    | None => (fs, Raise AssertionError)
    | Some name =>
        match normalized p with
        | Raise e => (fs, Raise e)
        | Ok p' =>
            match save_to_archive c {["controller_class" := name]} with
            | (ar, Raise e) => (<[p' := ar]> fs, Raise e)
            | (ar, Ok _) =>
                match infos with
                | None => (<[p' := ar]> fs, Raise TypeError)
                | Some m =>
                    (<[p' := <["infos" := json_dumps (m ∪ Control.infos c)]> ar]> fs,
                     Ok p')
                end
            end
        end
    end.
Proof.
  unfold save, normalized.
  destruct (reverse_map reg !! type c) as [name|]; [|done].
  destruct (if bool_decide _ then _ else _) as [p'|]; [|done].
  rewrite writestr_bind, zip_bind_unfold, insert_empty.
  destruct (save_to_archive c _) as [ar [[]|e]]; [|done].
  by destruct infos.
Qed.

(** X20.  [save] touches one file at most, the one under the normalised
    path: every other path holds after the call what it held before,
    whether [save] returns or raises. *)
Theorem save_frame (reg : Registry) (c : controller Internals)
    (p q : Path) (infos : option Infos) (fs : Files) :
  normalized p ≠ Ok q →
  fst (save reg c (APath p) infos fs) !! q = fs !! q.
Proof.
  intros Hq. rewrite save_unfold.
  destruct (reverse_map reg !! type c); [|done].
  destruct (normalized p) as [p'|]; [|done].
  assert (p' ≠ q) by congruence.
  destruct (save_to_archive c _) as [ar [[]|e]]; [destruct infos|];
    cbn [fst]; by rewrite lookup_insert_ne.
Qed.

(** X21.  [save] replaces the archive under the path: for a registered
    controller, what the path held before has no effect on the files after
    the call nor on the result. *)
Theorem save_overwrites (reg : Registry) (c : controller Internals)
    (p p' : Path) (infos : option Infos) (fs : Files) (old : Archive) :
  is_Some (reverse_map reg !! type c) →
  normalized p = Ok p' →
  save reg c (APath p) infos (<[p' := old]> fs)
  = save reg c (APath p) infos fs.
Proof.
  intros [name Hreg] Hnorm. rewrite !save_unfold, Hreg, Hnorm.
  destruct (save_to_archive c _) as [ar [[]|e]]; [destruct infos|];
    by rewrite insert_insert_eq.
Qed.


(** X23.  What a [save] without [infos] leaves behind cannot be loaded:
    for a registered controller whose kind writes its payload (and no
    entry ["infos"]) and reads it back, the archive created by the failed
    call exists, and [load] of it raises [KeyError] at the missing entry
    ["infos"]. *)
Theorem load_after_save_infos_omitted (reg : Registry)
    (c c0 : controller Internals) (p p' : Path) (fs : Files)
    (name : string) (ar : Archive) :
  reverse_map reg !! type c = Some name →
  normalized p = Ok p' →
  save_to_archive c {["controller_class" := name]} = (ar, Ok ()) →
  ar !! "controller_class" = Some name →
  ar !! "infos" = None →
  load_from_archive (type c) ar = Ok c0 →
  ∃ fs', save reg c (APath p) None fs = (fs', Raise TypeError)
         ∧ fs' !! p' = Some ar
         ∧ load reg p' fs' = Raise KeyError.
Proof.
  intros Hreg Hnorm Hsave Hclass Hinfos Hload.
  eexists. rewrite save_unfold, Hreg, Hnorm, Hsave.
  split; [done|]. split; [by rewrite lookup_insert_eq|].
  unfold load. rewrite lookup_insert_eq. py_bind.
  unfold read, getitem. rewrite Hclass. py_bind.
  rewrite (reverse_map_Some _ _ _ Hreg). py_bind.
  rewrite Hload. py_bind. by rewrite Hinfos.
Qed.

(** X24.  An archive can only be loaded where its kind is registered:
    after a successful [save] under the registry [reg], [load] under a
    registry that has no kind of the written name raises [KeyError],
    before the controller kind is asked to read anything. *)
Theorem load_unregistered_kind (reg reg' : Registry)
    (c : controller Internals) (p p' : Path) (m : Infos) (fs : Files)
    (name : string) (ar : Archive) :
  reverse_map reg !! type c = Some name →
  normalized p = Ok p' →
  save_to_archive c {["controller_class" := name]} = (ar, Ok ()) →
  ar !! "controller_class" = Some name →
  reg' !! name = None →
  ∃ fs', save reg c (APath p) (Some m) fs = (fs', Ok p')
         ∧ load reg' p' fs' = Raise KeyError.
Proof.
  intros Hreg Hnorm Hsave Hclass Hnone.
  eexists. rewrite save_unfold, Hreg, Hnorm, Hsave. split; [done|].
  unfold load. rewrite lookup_insert_eq. py_bind.
  unfold read, getitem.
  rewrite (lookup_insert_ne _ "infos" "controller_class") by done.
  rewrite Hclass. py_bind. by rewrite Hnone.
Qed.

(** X25.  [load] of a path that holds no archive raises
    [FileNotFoundError]; in particular the path given to [save] cannot be
    loaded when [save] normalised it to another one and it held nothing
    before. *)
Theorem load_original_path (reg : Registry) (c : controller Internals)
    (p p' : Path) (infos : option Infos) (fs : Files) :
  normalized p = Ok p' → p' ≠ p → fs !! p = None →
  load reg p (fst (save reg c (APath p) infos fs)) = Raise FileNotFoundError.
Proof.
  intros Hnorm Hne Hfs. unfold load.
  replace (fst (save reg c (APath p) infos fs) !! p) with (fs !! p).
  - by rewrite Hfs.
  - rewrite save_unfold, Hnorm.
    destruct (reverse_map reg !! type c); [|done].
    destruct (save_to_archive c _) as [ar [[]|e]]; [destruct infos|];
      cbn [fst]; by rewrite lookup_insert_ne.
Qed.

End with_env.

(** *** Witnesses, in the environment [Sample] *)

Lemma random_registered :
  reverse_map CONTROLLERS !! type Sample.random_ctrl = Some "random".
Proof. vm_compute. reflexivity. Qed.

Lemma save_frame_witness :
  fst (save CONTROLLERS Sample.random_ctrl (APath Sample.ctrl_bin) None ∅)
    !! Sample.ctrl_bin = (∅ : Files) !! Sample.ctrl_bin.
Proof.
  apply save_frame. intros Heq. discriminate Heq.
Defined.

Lemma save_overwrites_witness :
  save CONTROLLERS Sample.random_ctrl (APath Sample.ctrl_bin) (Some ∅)
    (<[Sample.ctrl_zip := {["old" := "entry"]}]> ∅)
  = save CONTROLLERS Sample.random_ctrl (APath Sample.ctrl_bin) (Some ∅) ∅.
Proof.
  apply save_overwrites.
  - rewrite random_registered. by eexists.
  - reflexivity.
Defined.

Lemma sample_with_suffix (p : Path) (s : string) (q : Path) :
  with_suffix p s = Ok q → suffix q = s.
Proof.
  cbn [with_suffix suffix Sample.env]. case_bool_decide; [done|].
  by intros [= <-].
Qed.

Lemma sample_save_Ok :
  ∃ fs', save CONTROLLERS Sample.random_ctrl (APath Sample.ctrl_bin) (Some ∅) ∅
         = (fs', Ok Sample.ctrl_zip).
Proof.
  eexists. rewrite save_unfold, random_registered. reflexivity.
Qed.


Lemma load_after_save_infos_omitted_witness :
  ∃ fs', save CONTROLLERS Sample.random_ctrl (APath Sample.ctrl_bin) None ∅
         = (fs', Raise TypeError)
         ∧ fs' !! Sample.ctrl_zip = Some Sample.random_archive
         ∧ load CONTROLLERS Sample.ctrl_zip fs' = Raise KeyError.
Proof.
  apply (load_after_save_infos_omitted CONTROLLERS Sample.random_ctrl
           (Controller RandomController ∅ "state of the kind")
           Sample.ctrl_bin Sample.ctrl_zip ∅ "random" Sample.random_archive).
  - apply random_registered.
  - reflexivity.
  - reflexivity.
  - reflexivity.
  - reflexivity.
  - reflexivity.
Defined.

Lemma load_unregistered_kind_witness :
  ∃ fs', save CONTROLLERS Sample.random_ctrl (APath Sample.ctrl_bin) (Some ∅) ∅
         = (fs', Ok Sample.ctrl_zip)
         ∧ load (delete "random" CONTROLLERS) Sample.ctrl_zip fs'
           = Raise KeyError.
Proof.
  apply (load_unregistered_kind CONTROLLERS (delete "random" CONTROLLERS)
           Sample.random_ctrl Sample.ctrl_bin Sample.ctrl_zip ∅ ∅ "random"
           Sample.random_archive).
  - apply random_registered.
  - reflexivity.
  - reflexivity.
  - reflexivity.
  - apply lookup_delete_eq.
Defined.

Lemma load_original_path_witness :
  load CONTROLLERS Sample.ctrl_bin
    (fst (save CONTROLLERS Sample.random_ctrl (APath Sample.ctrl_bin)
            (Some ∅) ∅))
  = Raise FileNotFoundError.
Proof.
  apply (load_original_path CONTROLLERS Sample.random_ctrl
           Sample.ctrl_bin Sample.ctrl_zip).
  - reflexivity.
  - intros Heq. discriminate Heq.
  - reflexivity.
Defined.

End ControlMore.

(** ** More on the kinematics *)

Module RobotMore.
Import Robot RobotFacts RobotCell.
Local Open Scope R_scope.

(** The velocity before the test of the threshold. *)
Lemma next_velocity (self : t) (action : Vec.t) (dt : R) :
  let v := Vec.add (Vec.rmul (1 - INERTIAL_LOSS * dt) (vel self))
                   (Vec.rmul dt (Vec.rmul ACCELERATION_SCALE action)) in
  vel (fst (next_position self action dt))
  = if Rlt_dec (Vec.length v) (1 / 100) then Vec.null else v.
Proof.
  cbv zeta. unfold next_position. cbn [vel acc set_acc set_vel].
  rewrite threshold_value. by destruct (Rlt_dec _ _).
Qed.

(** X26.  [next_position] leaves no residual drift: after the call the
    velocity of the robot is either the null vector or not shorter than
    the threshold [min(.01, ACCELERATION_SCALE / 2)], which is [.01]. *)
Theorem next_position_velocity (self : t) (action : Vec.t) (dt : R) :
  let v' := vel (fst (next_position self action dt)) in
  v' = Vec.null
  ∨ (Rmin (1 / 100) (ACCELERATION_SCALE / 2) <= Vec.length v'
     ∧ 1 / 100 <= Vec.length v').
Proof.
  cbv zeta. rewrite threshold_value, next_velocity. cbv zeta.
  destruct (Rlt_dec _ _) as [Hlt|Hge]; [by left|right].
  split; by apply Rnot_lt_le.
Qed.

(** X28.  With [dt = 0], [next_position] returns the position of the robot
    for every action, and the velocity is the old one, or null when the
    old one is shorter than [.01]. *)
Theorem next_position_dt_0 (self : t) (action : Vec.t) :
  snd (next_position self action 0) = pos self
  ∧ vel (fst (next_position self action 0))
    = if Rlt_dec (Vec.length (vel self)) (1 / 100)
      then Vec.null else vel self.
Proof.
  assert (Hv : Vec.add (Vec.rmul (1 - INERTIAL_LOSS * 0) (vel self))
                 (Vec.rmul 0 (Vec.rmul ACCELERATION_SCALE action))
               = vel self).
  { apply vec_eq; simpl; ring. }
  split.
  - unfold next_position. cbn [vel acc set_acc set_vel]. rewrite Hv.
    destruct (Rlt_dec _ _); cbn [pos set_vel vel];
      apply vec_eq; simpl; ring.
  - rewrite next_velocity. cbv zeta. by rewrite Hv.
Qed.

Section with_aligned.
Variable aligned : Vec.t → Z * Z.

(** X29.  [reset(pos)] puts the robot at rest in the cell of [pos]:
    [cell()] is then [prev_cell], and [next_position] with the null action
    returns [pos] for every [dt] and leaves the robot as [reset] made it;
    what the robot was before [reset], but for its [data], has no
    effect. *)
Theorem reset_at_rest (self other : t) (p : Vec.t) (dt : R) :
  let r := reset aligned self p in
  cell aligned r = prev_cell r
  ∧ next_position r Vec.null dt = (r, p)
  ∧ (data other = data self → reset aligned other p = r).
Proof.
  cbv zeta. split; [reflexivity|]. split.
  - unfold next_position, reset. cbn [vel acc set_acc set_vel data pos
      prev_cell reward].
    rewrite !rmul_null, add_null_r.
    destruct (Rlt_dec _ _); unfold set_vel, set_acc;
      cbn [pos vel data prev_cell acc reward];
      by rewrite rmul_null, add_null_r.
  - intros Hd. unfold reset. by rewrite Hd.
Qed.

End with_aligned.

End RobotMore.
